(** * Outlook CSV Scheduler (main.py): loader, busy-status mapper, submitter

    A shallow embedding of [src/main.py]. Everything the program itself
    computes is a function below, named after the source; what it gets
    from its environment is an explicit input:

    - a Python [str] is the list of its code points; [str.strip], the
      white space and digit classes of [re] and [datetime.strptime] for
      the one format the program uses are written out; [str.lower],
      which needs the Unicode case tables, is a parameter;
    - a CSV file is the list of records [csv.reader] yields for it, one
      per line, the empty line being the empty record; [csv.DictReader]
      is written out on top of that, with its [restkey] and [restval];
      [_load_csv] is the load on the records read, [_load_csv_path] the
      load together with the exception, if any, at which reading the
      file stops, and likewise [select_csv] and [select_csv_path];
    - Outlook is a state together with the effect of creating, filling
      and saving one appointment, which succeeds or raises;
    - exceptions are values: a function that may raise returns a
      [result];
    - the worker thread of a submission runs to its end, and the log
      holds the lines in the order [_append_log] was called. *)

From Stdlib Require Import NArith ZArith Ascii String DecimalString.
From stdpp Require Import base option list gmap sorting.

Open Scope N_scope.

(** ** Python strings *)

(** A Python [str]: its code points, in order. *)
Abbreviation str := (list N).

Module PyStr.

(** The source file is UTF-8; literals are written as in the source and
    decoded to code points. [need] counts the continuation bytes still
    expected, [acc] holds the bits read so far. *)
Fixpoint utf8_decode (bs : list N) (need : nat) (acc : N) : str :=
  match bs with
  | [] => []
  | b :: bs' =>
      match need with
      | O =>
          if b <? 0x80 then b :: utf8_decode bs' 0%nat 0
          else if b <? 0xE0 then utf8_decode bs' 1%nat (N.land b 0x1F)
          else if b <? 0xF0 then utf8_decode bs' 2%nat (N.land b 0x0F)
          else utf8_decode bs' 3%nat (N.land b 0x07)
      | S n =>
          let acc' := acc * 64 + N.land b 0x3F in
          match n with
          | O => acc' :: utf8_decode bs' 0%nat 0
          | S _ => utf8_decode bs' n acc'
          end
      end
  end.

Definition lit (s : string) : str :=
  utf8_decode (map N_of_ascii (list_ascii_of_string s)) 0%nat 0.

(** [str.isspace] for one character, which is also the class [\s] of
    [re] on [str] patterns (the 29 code points CPython lists). *)
Definition isspace (c : N) : bool :=
  ((0x09 <=? c) && (c <=? 0x0D)) || ((0x1C <=? c) && (c <=? 0x20))
  || (c =? 0x85) || (c =? 0xA0) || (c =? 0x1680)
  || ((0x2000 <=? c) && (c <=? 0x200A))
  || (c =? 0x2028) || (c =? 0x2029) || (c =? 0x202F) || (c =? 0x205F)
  || (c =? 0x3000).

(** [s.lstrip()], [s.rstrip()] and [s.strip()] without argument. *)
Fixpoint lstrip (s : str) : str :=
  match s with
  | c :: s' => if isspace c then lstrip s' else s
  | [] => []
  end.

Definition rstrip (s : str) : str := reverse (lstrip (reverse s)).

Definition strip (s : str) : str := rstrip (lstrip s).

(** Truth value of a string: non-empty. *)
Definition truthy (s : str) : bool :=
  match s with [] => false | _ :: _ => true end.

(** [str(n)] for an integer. *)
Definition of_Z (n : Z) : str :=
  map N_of_ascii (list_ascii_of_string (NilZero.string_of_int (Z.to_int n))).

(** [sep.join(parts)]. *)
Fixpoint join (sep : str) (parts : list str) : str :=
  match parts with
  | [] => []
  | [p] => p
  | p :: ps => p ++ sep ++ join sep ps
  end.

(** [str.lower] restricted to what can be written down without the
    Unicode case tables: ASCII letters are lowered, every other code
    point is kept.  It agrees with Python on every string whose
    non-ASCII characters are uncased (kana, kanji, digits, spaces). *)
Definition lower_ascii (s : str) : str :=
  map (fun c => if (0x41 <=? c) && (c <=? 0x5A) then c + 0x20 else c) s.

End PyStr.

(** [u"..."] is the string literal, decoded once where it is written. *)
Notation "'u' s" :=
  (ltac:(let v := eval vm_compute in (PyStr.lit s%string) in exact v))
  (at level 1, s at level 0, only parsing).

(** ** Constants of the module *)

(** [STATUS_MAP]: status label to Outlook busy code. *)
Definition STATUS_MAP : gmap str Z :=
  list_to_map
    [ (u"休み", 3%Z);
      (u"ooo", 3%Z);
      (u"不在", 3%Z);
      (u"outofoffice", 3%Z);
      (u"外出", 2%Z);
      (u"忙しい", 2%Z);
      (u"busy", 2%Z);
      (u"仮", 1%Z);
      (u"tentative", 1%Z);
      (u"在席", 0%Z);
      (u"空き", 0%Z);
      (u"free", 0%Z);
      (u"他所勤務", 4%Z);
      (u"workingelsewhere", 4%Z) ].

Definition EXPECTED_FIELDS : list str :=
  [ u"Date"; u"Start"; u"End"; u"Subject"; u"Status"; u"Location"; u"Body" ].

(** ** Busy-status mapper *)

Section Mapper.

(** [str.lower]: the Unicode lowercasing of the interpreter, left open. *)
Variable lower : str -> str.

(** [map_busy_status(value)]. *)
Definition map_busy_status (value : str) : Z :=
  let key := lower (PyStr.strip value) in
  if negb (PyStr.truthy key) then 2%Z
  else default 2%Z (STATUS_MAP !! key).

End Mapper.

(** ** Date-times *)

(** A naive [datetime] at minute resolution (seconds are always 0 here). *)
Record datetime := mk_datetime
  { year : Z; month : Z; day : Z; hour : Z; minute : Z }.

Module PyTime.

(** Start of every block of ten consecutive decimal digits (general
    category Nd, Unicode 14.0); the digit at offset [i] has value [i].
    This is the class [\d] of [re] on [str] patterns, and what [int]
    accepts. *)
Definition decimal_blocks : list N :=
  [ 0x30; 0x660; 0x6F0; 0x7C0; 0x966; 0x9E6; 0xA66; 0xAE6; 0xB66; 0xBE6;
    0xC66; 0xCE6; 0xD66; 0xDE6; 0xE50; 0xED0; 0xF20; 0x1040; 0x1090;
    0x17E0; 0x1810; 0x1946; 0x19D0; 0x1A80; 0x1A90; 0x1B50; 0x1BB0;
    0x1C40; 0x1C50; 0xA620; 0xA8D0; 0xA900; 0xA9D0; 0xA9F0; 0xAA50;
    0xABF0; 0xFF10; 0x104A0; 0x10D30; 0x11066; 0x110F0; 0x11136;
    0x111D0; 0x112F0; 0x11450; 0x114D0; 0x11650; 0x116C0; 0x11730;
    0x118E0; 0x11950; 0x11C50; 0x11D50; 0x11DA0; 0x16A60; 0x16AC0;
    0x16B50; 0x1D7CE; 0x1D7D8; 0x1D7E2; 0x1D7EC; 0x1D7F6; 0x1E140;
    0x1E2F0; 0x1E950; 0x1FBF0 ].

Definition decimal (c : N) : option Z :=
  match List.find (fun b => (b <=? c) && (c <? b + 10)) decimal_blocks with
  | Some b => Some (Z.of_N (c - b))
  | None => None
  end.

(** A backtracking matcher: every way to match a prefix of the input,
    in the order the [re] engine tries them, each with the value read
    and the input left over. *)
Definition matcher (A : Type) : Type := str -> list (A * str).

(** [\d] *)
Definition digit : matcher Z := fun s =>
  match s with
  | c :: r => match decimal c with Some d => [(d, r)] | None => [] end
  | [] => []
  end.

(** [[lo-hi]] for ASCII digits [lo], [hi]. *)
Definition range (lo hi : N) : matcher Z := fun s =>
  match s with
  | c :: r => if (lo <=? c) && (c <=? hi) then [(Z.of_N (c - 0x30), r)] else []
  | [] => []
  end.

(** One literal character. *)
Definition char (k : N) : matcher unit := fun s =>
  match s with
  | c :: r => if c =? k then [(tt, r)] else []
  | [] => []
  end.

(** [\s+], greedy: the longest run first, then shorter ones. *)
Fixpoint spaces (s : str) : list (unit * str) :=
  match s with
  | c :: r => if PyStr.isspace c then spaces r ++ [(tt, r)] else []
  | [] => []
  end.

(** Two characters read as a two-digit number. *)
Definition two (hi lo : matcher Z) : matcher Z := fun s =>
  '(a, r) ← hi s; '(b, r') ← lo r; [((10 * a + b)%Z, r')].

(** [(?P<Y>\d\d\d\d)] *)
Definition re_Y : matcher Z := fun s =>
  '(a, r1) ← digit s; '(b, r2) ← digit r1;
  '(c, r3) ← digit r2; '(d, r4) ← digit r3;
  [((1000 * a + 100 * b + 10 * c + d)%Z, r4)].

(** [(?P<m>1[0-2]|0[1-9]|[1-9])] *)
Definition re_m : matcher Z := fun s =>
  two (range 0x31 0x31) (range 0x30 0x32) s
  ++ two (range 0x30 0x30) (range 0x31 0x39) s
  ++ range 0x31 0x39 s.

(** [(?P<d>3[0-1]|[1-2]\d|0[1-9]|[1-9]| [1-9])] *)
Definition re_d : matcher Z := fun s =>
  two (range 0x33 0x33) (range 0x30 0x31) s
  ++ two (range 0x31 0x32) digit s
  ++ two (range 0x30 0x30) (range 0x31 0x39) s
  ++ range 0x31 0x39 s
  ++ ('(_, r) ← char 0x20 s; range 0x31 0x39 r).

(** [(?P<H>2[0-3]|[0-1]\d|\d)] *)
Definition re_H : matcher Z := fun s =>
  two (range 0x32 0x32) (range 0x30 0x33) s
  ++ two (range 0x30 0x31) digit s
  ++ digit s.

(** [(?P<M>[0-5]\d|\d)] *)
Definition re_M : matcher Z := fun s =>
  two (range 0x30 0x35) digit s ++ digit s.

(** The pattern [_strptime] builds for ["%Y-%m-%d %H:%M"]:
    Y [-] m [-] d [\s+] H [:] M. *)
Definition re_format : matcher datetime := fun s =>
  '(Y, r1) ← re_Y s; '(_, r2) ← char 0x2D r1;
  '(m, r3) ← re_m r2; '(_, r4) ← char 0x2D r3;
  '(d, r5) ← re_d r4; '(_, r6) ← spaces r5;
  '(H, r7) ← re_H r6; '(_, r8) ← char 0x3A r7;
  '(M, r9) ← re_M r8;
  [(mk_datetime Y m d H M, r9)].

Definition is_leap (y : Z) : bool :=
  ((y mod 4 =? 0) && (negb (y mod 100 =? 0) || (y mod 400 =? 0)))%Z.

Definition days_in_month (y m : Z) : Z :=
  (if m =? 2 then (if is_leap y then 29 else 28)
   else if (m =? 4) || (m =? 6) || (m =? 9) || (m =? 11) then 30
   else 31)%Z.

(** [datetime.strptime(s, "%Y-%m-%d %H:%M")]; [None] stands for the
    [ValueError] it raises: no match, unconverted data after the first
    match, or a date that does not exist (year 0, 30 February). *)
Definition strptime (s : str) : option datetime :=
  match re_format s with
  | (dt, []) :: _ =>
      if ((1 <=? year dt) && (day dt <=? days_in_month (year dt) (month dt)))%Z
      then Some dt else None
  | _ => None
  end.

(** Order of naive date-times: field by field, the first difference
    decides. *)
Definition first_diff (c d : comparison) : comparison :=
  match c with Eq => d | _ => c end.

Definition compare_dt (a b : datetime) : comparison :=
  first_diff (year a ?= year b)%Z
    (first_diff (month a ?= month b)%Z
       (first_diff (day a ?= day b)%Z
          (first_diff (hour a ?= hour b)%Z (minute a ?= minute b)%Z))).

(** [a <= b] *)
Definition le_dt (a b : datetime) : bool :=
  match compare_dt a b with Gt => false | _ => true end.

End PyTime.

(** ** Data model *)

(** The dataclass [ScheduleRow]; [end_] is the field [end]. *)
Record ScheduleRow := mk_ScheduleRow
  { row_number : Z;
    date : str;
    start : str;
    end_ : str;
    subject : str;
    status : str;
    location : str;
    body : str;
    busy : Z }.

(** ** Exceptions *)

Inductive exn :=
| ValueError (msg : str)
| AttributeError.

(** A computation that returns or raises. *)
Inductive result (A : Type) :=
| Return (a : A)
| Raise (e : exn).
Arguments Return {A} a.
Arguments Raise {A} e.

#[global] Instance result_ret : MRet result := @Return.
#[global] Instance result_bind : MBind result := fun A B f r =>
  match r with
  | Return a => f a
  | Raise e => Raise e
  end.

(** ** csv.DictReader *)

Module Csv.

(** What a [DictReader] row holds under a key: a field of the record,
    [None] (the [restval] of a short record), or the list of surplus
    fields of a long record. *)
Inductive value :=
| VNone
| VStr (s : str)
| VList (l : list str).

(** A row dictionary, in insertion order. Keys are header names; the
    key [None] is the [restkey]. *)
Abbreviation pydict := (list (option str * value)).

(** [d[k] = v]: an existing key keeps its place. *)
Fixpoint set (k : option str) (v : value) (d : pydict) : pydict :=
  match d with
  | [] => [(k, v)]
  | (k', v') :: d' =>
      if decide (k = k') then (k, v) :: d' else (k', v') :: set k v d'
  end.

(** [d.get(k)]; a missing key gives [None]. *)
Fixpoint get (k : option str) (d : pydict) : value :=
  match d with
  | [] => VNone
  | (k', v') :: d' => if decide (k = k') then v' else get k d'
  end.

(** [d.values()] *)
Definition values (d : pydict) : list value := map snd d.

(** The dictionary [DictReader.__next__] builds from a non-empty
    record: [dict(zip(fieldnames, row))], then the surplus fields under
    [restkey] or [restval] for the names left without a field. *)
Definition row_dict (fieldnames row : list str) : pydict :=
  let d := foldl (fun d kv => set (Some kv.1) (VStr kv.2) d) [] (zip fieldnames row) in
  let lf := length fieldnames in
  let lr := length row in
  if (lf <? lr)%nat then set None (VList (drop lf row)) d
  else if (lr <? lf)%nat then foldl (fun d k => set (Some k) VNone d) d (drop lr fieldnames)
  else d.

(** The records of a file as [csv.reader] yields them, one per line; an
    empty line is the empty record. [fieldnames] is the first record,
    [None] when there is none. *)
Definition fieldnames (records : list (list str)) : option (list str) :=
  head records.

(** The rows a [DictReader] yields after the header: empty records are
    passed over, every other one becomes a dictionary. *)
Definition rows (records : list (list str)) : list pydict :=
  match records with
  | [] => []
  | names :: data =>
      map (row_dict names) (filter (fun row => row <> []) data)
  end.

End Csv.

(** ** Loader *)

Definition no_header_message : str := u"CSVヘッダを検出できません。".

Definition bad_header_message (missing : list str) : str :=
  u"CSVヘッダが不正です。欠損: " ++ PyStr.join (u", ") missing.

(** [value or ""] *)
Definition or_empty (v : Csv.value) : Csv.value :=
  match v with
  | Csv.VNone | Csv.VStr [] | Csv.VList [] => Csv.VStr []
  | _ => v
  end.

(** [v.strip()]: only a string has the method. *)
Definition strip_value (v : Csv.value) : result str :=
  match v with
  | Csv.VStr s => Return (PyStr.strip s)
  | _ => Raise AttributeError
  end.

(** [any((value or "").strip() for value in values)], left to right,
    stopping at the first non-blank value. *)
Fixpoint any_stripped (values : list Csv.value) : result bool :=
  match values with
  | [] => Return false
  | v :: values' =>
      s ← strip_value (or_empty v);
      if PyStr.truthy s then Return true else any_stripped values'
  end.

(** [(raw.get(name) or "").strip()] *)
Definition field (raw : Csv.pydict) (name : str) : result str :=
  strip_value (or_empty (Csv.get (Some name) raw)).

Section Loader.

Variable lower : str -> str.

(** Body of the loop of [_load_csv] for one row: [None] when the row is
    passed over by [continue]. *)
Definition load_row (index : Z) (raw : Csv.pydict) : result (option ScheduleRow) :=
  nonblank ← any_stripped (Csv.values raw);
  if negb nonblank then Return None
  else
    date ← field raw (u"Date");
    start ← field raw (u"Start");
    end_ ← field raw (u"End");
    subject ← field raw (u"Subject");
    status ← field raw (u"Status");
    location ← field raw (u"Location");
    body ← field raw (u"Body");
    let busy := map_busy_status lower status in
    Return (Some (mk_ScheduleRow index date start end_ subject status location body busy)).

(** The loop [for index, raw in enumerate(reader, start=2)], with the
    list [rows] built so far. *)
Fixpoint load_loop (raws : list Csv.pydict) (index : Z) (rows : list ScheduleRow)
  : result (list ScheduleRow) :=
  match raws with
  | [] => Return rows
  | raw :: raws' =>
      r ← load_row index raw;
      load_loop raws' (index + 1)
        (match r with Some row => rows ++ [row] | None => rows end)
  end.

(** [_load_csv], on the records of the file at [path]. *)
Definition _load_csv (records : list (list str)) : result (list ScheduleRow) :=
  match Csv.fieldnames records with
  | None => Raise (ValueError no_header_message)
  | Some headers =>
      let missing := filter (fun field => field ∉ headers) EXPECTED_FIELDS in
      if bool_decide (missing <> []) then Raise (ValueError (bad_header_message missing))
      else load_loop (Csv.rows records) 2 []
  end.

End Loader.

(** ** Application state *)

(** One line of the table: the tuple [_refresh_tree] inserts. *)
Record TreeItem := mk_TreeItem
  { t_no : Z; t_date : str; t_start : str; t_end : str; t_subject : str;
    t_status : str; t_busy : Z; t_location : str }.

Inductive dialog :=
| showerror (title message : str)
| showwarning (title message : str).

(** [SchedulerApp]: the attributes the methods read and write, the table
    and log widgets by their content, and the message boxes shown so far. *)
Record App := mk_App
  { csv_path : option str;
    path_var : str;
    rows : list ScheduleRow;
    tree : list TreeItem;
    log_text : list str;
    register_button : bool;
    dialogs : list dialog }.

(** [_append_log(message)]: one more line at the end of the log. *)
Definition _append_log (message : str) (app : App) : App :=
  mk_App (csv_path app) (path_var app) (rows app) (tree app)
    (log_text app ++ [message]) (register_button app) (dialogs app).

Definition show (d : dialog) (app : App) : App :=
  mk_App (csv_path app) (path_var app) (rows app) (tree app)
    (log_text app) (register_button app) (dialogs app ++ [d]).

Definition set_button (enabled : bool) (app : App) : App :=
  mk_App (csv_path app) (path_var app) (rows app) (tree app)
    (log_text app) enabled (dialogs app).

(** [_refresh_tree]: the table is emptied and refilled from [rows],
    numbered from 1. *)
Definition _refresh_tree (app : App) : App :=
  let items :=
    imap (fun idx row =>
            mk_TreeItem (Z.of_nat idx + 1) (date row) (start row) (end_ row)
              (subject row) (status row) (busy row) (location row))
         (rows app) in
  mk_App (csv_path app) (path_var app) (rows app) items
    (log_text app) (register_button app) (dialogs app).

Section Select.

Variable lower : str -> str.

(** [str(Path(file_path))]: the path as [pathlib] prints it. *)
Variable path_str : str -> str.

(** [select_csv]: [file_path] is the answer of the file dialog (empty
    when cancelled), [records] the content of that file. An exception
    other than [ValueError] leaves the method; it is returned next to
    the state. *)
Definition select_csv (file_path : str) (records : list (list str)) (app : App)
  : App * option exn :=
  if negb (PyStr.truthy file_path) then (app, None)
  else
    match _load_csv lower records with
    | Raise (ValueError msg) =>
        (show (showerror (u"CSV読込エラー") msg) app, None)
    | Raise e => (app, Some e)
    | Return rows =>
        let app1 :=
          mk_App (Some (path_str file_path)) (path_str file_path) rows (tree app)
            (log_text app) (register_button app) (dialogs app) in
        let app2 := _refresh_tree app1 in
        (_append_log (u"CSV読込: " ++ PyStr.of_Z (Z.of_nat (length rows))
                        ++ u"件を取得") app2,
         None)
    end.

End Select.

(** ** Submitter *)

(** [_parse_datetimes(row)]: the triple [(start_dt, end_dt, error)]. *)
Definition _parse_datetimes (row : ScheduleRow)
  : option datetime * option datetime * option str :=
  if negb (PyStr.truthy (date row)) then (None, None, Some (u"Date が空です"))
  else if negb (PyStr.truthy (start row)) || negb (PyStr.truthy (end_ row))
  then (None, None, Some (u"Start/End 不正"))
  else
    match PyTime.strptime (date row ++ u" " ++ start row),
          PyTime.strptime (date row ++ u" " ++ end_ row) with
    | Some start_dt, Some end_dt =>
        if PyTime.le_dt end_dt start_dt
        then (None, None, Some (u"End は Start より後である必要があります"))
        else (Some start_dt, Some end_dt, None)
    | _, _ => (None, None, Some (u"Start/End 不正"))
    end.

(** What is handed to Outlook for one appointment; [Location] and [Body]
    are assigned only when the row has them. *)
Record Appointment := mk_Appointment
  { Subject : str;
    Start : datetime;
    End : datetime;
    BusyStatus : Z;
    Location : option str;
    Body : option str }.

Definition appointment_of (row : ScheduleRow) (start_dt end_dt : datetime) : Appointment :=
  mk_Appointment (subject row) start_dt end_dt (busy row)
    (if PyStr.truthy (location row) then Some (location row) else None)
    (if PyStr.truthy (body row) then Some (body row) else None).

Definition ok_line (row : ScheduleRow) : str :=
  u"[OK] " ++ date row ++ u" " ++ start row ++ u"-" ++ end_ row ++ u" "
  ++ (if PyStr.truthy (subject row) then subject row else u"(件名なし)")
  ++ u" BusyStatus=" ++ PyStr.of_Z (busy row).

Definition ng_line (row : ScheduleRow) (reason : str) : str :=
  u"[NG] 行" ++ PyStr.of_Z (row_number row) ++ u" " ++ reason.

Definition host_ng_line (row : ScheduleRow) (exc : str) : str :=
  u"[NG] 行" ++ PyStr.of_Z (row_number row) ++ u" Outlook登録失敗: " ++ exc.

Definition dispatch_ng_line (exc : str) : str :=
  u"[NG] Outlook起動に失敗: " ++ exc.

Section Submitter.

(** Outlook, seen from the program: a state, and the effect of creating,
    filling and saving one appointment item, which either succeeds or
    raises with some text. *)
Variable Host : Type.
Variable create : Host -> Appointment -> Host * option str.

(** The outcome of [Dispatch("Outlook.Application")]. *)
Inductive dispatched :=
| Connected (outlook : Host)
| Failed (exc : str).

(** State of a run: the application, Outlook, and the appointments
    handed to Outlook so far. *)
Record Run := mk_Run
  { run_app : App; run_host : Host; run_calls : list Appointment }.

(** Body of the loop over [self.rows]: a row with an error is logged
    and passed over; otherwise the appointment goes to Outlook and the
    outcome is logged. ([_parse_datetimes] gives both date-times
    whenever it gives no error.) *)
Definition register_row (row : ScheduleRow) (st : Run) : Run :=
  let '(start_dt, end_dt, error) := _parse_datetimes row in
  match error, start_dt, end_dt with
  | Some reason, _, _ =>
      mk_Run (_append_log (ng_line row reason) (run_app st))
        (run_host st) (run_calls st)
  | None, Some start_dt, Some end_dt =>
      let a := appointment_of row start_dt end_dt in
      match create (run_host st) a with
      | (outlook, None) =>
          mk_Run (_append_log (ok_line row) (run_app st)) outlook
            (run_calls st ++ [a])
      | (outlook, Some exc) =>
          mk_Run (_append_log (host_ng_line row exc) (run_app st)) outlook
            (run_calls st ++ [a])
      end
  | None, _, _ => st
  end.

Definition register_loop (rows : list ScheduleRow) (st : Run) : Run :=
  foldl (fun st row => register_row row st) st rows.

(** The [finally] clause: the button is enabled again and the closing
    line is logged. *)
Definition finish (app : App) : App :=
  _append_log (u"予定登録を終了") (set_button true app).

(** [_register_appointments]: the application afterwards, and the
    appointments handed to Outlook. *)
Definition _register_appointments (d : dispatched) (app : App)
  : App * list Appointment :=
  match d with
  | Failed exc => (finish (_append_log (dispatch_ng_line exc) app), [])
  | Connected outlook =>
      let st := register_loop (rows app) (mk_Run app outlook []) in
      (finish (run_app st), run_calls st)
  end.

(** [on_register]: [modules] tells whether win32com and pythoncom were
    imported. The worker runs [_register_appointments] when the guards
    pass. *)
Definition on_register (modules : bool) (d : dispatched) (app : App)
  : App * list Appointment :=
  if bool_decide (rows app = []) then
    (show (showwarning (u"CSV未選択") (u"先にCSVファイルを読み込んでください。")) app, [])
  else if negb modules then
    (show (showerror (u"依存モジュール不足") (u"win32com.client と pythoncom が必要です。")) app, [])
  else
    _register_appointments d (_append_log (u"予定登録を開始") (set_button false app)).

End Submitter.

Arguments Connected {Host} outlook.
Arguments Failed {Host} exc.
Arguments mk_Run {Host} run_app run_host run_calls.
Arguments run_app {Host} r.
Arguments run_host {Host} r.
Arguments run_calls {Host} r.
Arguments register_row {Host} create row st.
Arguments register_loop {Host} create rows st.
Arguments _register_appointments {Host} create d app.
Arguments on_register {Host} create modules d app.

(** A stand-in for Outlook that counts the appointments it is handed and
    refuses the one numbered [fail_at] (counting from 0). *)
Definition counting_create (fail_at : nat) (h : nat) (a : Appointment)
  : nat * option str :=
  (S h, if decide (h = fail_at) then Some (u"error") else None).

(** ** The table read by code *)

(** The labels of each busy code: 0 free, 1 tentative, 2 busy,
    3 out of office, 4 working elsewhere; no label for any other code. *)
Definition labels (code : Z) : list str :=
  if (code =? 0)%Z then [u"在席"; u"空き"; u"free"]
  else if (code =? 1)%Z then [u"仮"; u"tentative"]
  else if (code =? 2)%Z then [u"外出"; u"忙しい"; u"busy"]
  else if (code =? 3)%Z then [u"休み"; u"ooo"; u"不在"; u"outofoffice"]
  else if (code =? 4)%Z then [u"他所勤務"; u"workingelsewhere"]
  else [].

(** ** Messages, for the statements below *)

(** The three reasons [_parse_datetimes] gives. *)
Definition reason_date_empty : str := u"Date が空です".
Definition reason_start_end : str := u"Start/End 不正".
Definition reason_order : str :=
  u"End は Start より後である必要があります".

(** The closing line of a run. *)
Definition end_line : str := u"予定登録を終了".

(** A failure line of the log starts with the four characters of [[NG]]. *)
Definition is_failure_line (line : str) : bool :=
  bool_decide (take 4 line = [0x5B; 0x4E; 0x47; 0x5D]).

(** A success line starts with [[OK]]. *)
Definition is_success_line (line : str) : bool :=
  bool_decide (take 4 line = [0x5B; 0x4F; 0x4B; 0x5D]).

(** ** Notions used by the statements below *)

(** A field that is empty or only white space; a field the record does
    not have counts as empty. *)
Definition blank (v : Csv.value) : Prop :=
  v = Csv.VNone \/ exists s, v = Csv.VStr s /\ PyStr.strip s = [].

(** The line of the file on which the record at position [i] of the
    reader's output stands, when no field spans several lines: the
    header, at position 0, is line 1. *)
Definition line_number (i : nat) : Z := Z.of_nat i + 1.

(** A matcher never gives back more than it was given: what is left over
    is an end of the input. *)
Definition shrinking {A : Type} (m : PyTime.matcher A) : Prop :=
  forall s a r, (a, r) ∈ m s -> r `suffix_of` s.

(** What the loop of a run does with a row that has an error: one failure
    line, nothing for Outlook. *)
Definition rejected {Host : Type} (row : ScheduleRow) (reason : str) (st : Run Host)
  : Run Host :=
  mk_Run (_append_log (ng_line row reason) (run_app st)) (run_host st) (run_calls st).

(** A row dictionary in which every key is a header name and no value is
    a list. *)
Definition named (d : Csv.pydict) : Prop :=
  Forall (fun kv => kv.1 <> None /\ forall l, kv.2 <> Csv.VList l) d.

(** The row the loop body of the loader keeps, if it keeps one. *)
Definition outcome (lower : str -> str) (index : Z) (raw : Csv.pydict)
  : option ScheduleRow :=
  match load_row lower index raw with
  | Return o => o
  | Raise _ => None
  end.

(** ** The application as a whole *)

(** [SchedulerApp.__init__] with [_build_ui]: no path, no rows, an empty
    table and log, the button enabled. *)
Definition SchedulerApp_init : App := mk_App None [] [] [] [] true [].

(** The content [_refresh_tree] gives the table for a row list. *)
Definition table (rows : list ScheduleRow) : list TreeItem :=
  imap (fun idx row =>
          mk_TreeItem (Z.of_nat idx + 1) (date row) (start row) (end_ row)
            (subject row) (status row) (busy row) (location row))
       rows.

Section Session.

Context {Host : Type}.
Variable lower : str -> str.
Variable path_str : str -> str.
Variable create : Host -> Appointment -> Host * option str.

(** What the user can do: choose a file (the answer of the dialog and
    the content of the file), or press the register button (whether the
    modules are there, and what [Dispatch] gives). *)
Inductive action :=
| Select (file_path : str) (records : list (list str))
| Register (modules : bool) (d : dispatched Host).

(** The application after one action; an exception that leaves
    [select_csv] leaves the application as it was. *)
Definition perform (a : action) (app : App) : App :=
  match a with
  | Select file_path records => (select_csv lower path_str file_path records app).1
  | Register modules d => (on_register create modules d app).1
  end.

(** The application after a sequence of actions from its start. *)
Definition session (actions : list action) : App :=
  foldl (fun app a => perform a app) SchedulerApp_init actions.

End Session.

Arguments Select {Host} file_path records.
Arguments Register {Host} modules d.

(** ** Further notions for the statements below *)

(** No white space at either end. *)
Definition trimmed (s : str) : Prop :=
  (forall c, head s = Some c -> PyStr.isspace c = false)
  /\ (forall c, last s = Some c -> PyStr.isspace c = false).

(** A date-time that exists: the ranges of [datetime]. *)
Definition well_formed (d : datetime) : Prop :=
  (1 <= year d <= 9999 /\ 1 <= month d <= 12
   /\ 1 <= day d <= PyTime.days_in_month (year d) (month d)
   /\ 0 <= hour d <= 23 /\ 0 <= minute d <= 59)%Z.

(** The appointment a run hands to Outlook for a row, if the row passes
    validation. *)
Definition valid_appointment (row : ScheduleRow) : option Appointment :=
  match _parse_datetimes row with
  | (Some start_dt, Some end_dt, None) => Some (appointment_of row start_dt end_dt)
  | _ => None
  end.

(** A row as a load leaves it: fields without white space at the ends,
    the busy code that of the status and one of 0 to 4. *)
Definition loaded_row (lower : str -> str) (r : ScheduleRow) : Prop :=
  trimmed (date r) /\ trimmed (start r) /\ trimmed (end_ r) /\ trimmed (subject r)
  /\ trimmed (status r) /\ trimmed (location r) /\ trimmed (body r)
  /\ busy r = map_busy_status lower (status r)
  /\ (0 <= busy r <= 4)%Z.

(** A matcher whose values all satisfy [P]. *)
Definition yields {A : Type} (P : A -> Prop) (m : PyTime.matcher A) : Prop :=
  forall s a r, (a, r) ∈ m s -> P a.

(** ** Records read by column *)



(** The dictionary of a record under a header: name by name, the field
    of the record, or [None] where the record has ended. *)
Fixpoint dict_of (names row : list str) : Csv.pydict :=
  match names, row with
  | [], _ => []
  | n :: names', [] => (Some n, Csv.VNone) :: dict_of names' []
  | n :: names', f :: row' => (Some n, Csv.VStr f) :: dict_of names' row'
  end.

(** The line a row leaves in the log of a run: for a row that passes
    validation its success line or a failure line with the text of
    Outlook, for any other row the failure line with one of the three
    reasons. *)
Definition row_line (row : ScheduleRow) (line : str) : Prop :=
  (is_Some (valid_appointment row)
   /\ (line = ok_line row \/ exists exc, line = host_ng_line row exc))
  \/ (valid_appointment row = None
      /\ exists reason, line = ng_line row reason
           /\ reason ∈ [reason_date_empty; reason_start_end; reason_order]).

(** What holds of the application between two actions: the table shows
    the rows, the path shown is the path kept, there are rows only if a
    file was chosen, the button is enabled, and the rows are as a load
    leaves them, with increasing row numbers. *)
Definition consistent (lower : str -> str) (app : App) : Prop :=
  tree app = table (rows app)
  /\ path_var app = default [] (csv_path app)
  /\ (csv_path app = None -> rows app = [])
  /\ register_button app = true
  /\ Forall (loaded_row lower) (rows app)
  /\ StronglySorted Z.lt (row_number <$> rows app).

(** The opening line of a run. *)
Definition start_line : str := u"予定登録を開始".

(** ** Reading the file *)

(** An exception raised while the file is read, by [path.open], by the
    decoder or by [csv.reader]: a [ValueError] (such as
    [UnicodeDecodeError]), which [select_csv] catches, or one of another
    class (such as [OSError] or [csv.Error]), given with the name of its
    class. *)
Inductive read_error :=
| ReadValueError (msg : str)
| ReadOtherError (name msg : str).

(** What leaves [_load_csv(path)] when it does not return: an exception
    of its own statements, or one of reading the file. *)
Inductive load_error :=
| Raised (e : exn)
| Unread (r : read_error).

Inductive load_result :=
| Loaded (rows : list ScheduleRow)
| LoadFails (e : load_error).

Section Path.

Variable lower : str -> str.

(** [_load_csv(path)] with the reading of the file: [records] are the
    records the reader yields before it stops, [stop] the exception at
    which it stops, if it does not stop at the end of the file. Nothing
    is asked of the reader before the header, and after the header only
    record by record: the header is tested on the first record, the
    records read are taken through the loop, and an exception of reading
    leaves the method when the loop asks for the record after them. *)
Definition _load_csv_path (records : list (list str)) (stop : option read_error)
  : load_result :=
  match records, stop with
  | [], Some r => LoadFails (Unread r)
  | _, _ =>
      match _load_csv lower records with
      | Raise e => LoadFails (Raised e)
      | Return rows =>
          match stop with
          | Some r => LoadFails (Unread r)
          | None => Loaded rows
          end
      end
  end.

End Path.

Section SelectPath.

Variable lower : str -> str.
Variable path_str : str -> str.

(** [select_csv], with the reading of the file. [except ValueError]
    catches the [ValueError] of the load and a [ValueError] of reading
    (a byte that does not decode), and shows [str(exc)]; any other
    exception leaves the method and is returned next to the state. *)
Definition select_csv_path (file_path : str) (records : list (list str))
    (stop : option read_error) (app : App) : App * option load_error :=
  if negb (PyStr.truthy file_path) then (app, None)
  else
    match _load_csv_path lower records stop with
    | LoadFails (Raised (ValueError msg)) =>
        (show (showerror (u"CSV読込エラー") msg) app, None)
    | LoadFails (Unread (ReadValueError msg)) =>
        (show (showerror (u"CSV読込エラー") msg) app, None)
    | LoadFails e => (app, Some e)
    | Loaded rows =>
        let app1 :=
          mk_App (Some (path_str file_path)) (path_str file_path) rows (tree app)
            (log_text app) (register_button app) (dialogs app) in
        let app2 := _refresh_tree app1 in
        (_append_log (u"CSV読込: " ++ PyStr.of_Z (Z.of_nat (length rows))
                        ++ u"件を取得") app2,
         None)
    end.

End SelectPath.

(** * Properties *)

(** ** Literals and the library models on examples *)

Example lit_kanji : PyStr.lit "休み" = [0x4F11; 0x307F].
Proof. vm_compute. reflexivity. Qed.

Example strip_ideographic_space : PyStr.strip (u"　 休み	") = u"休み".
Proof. vm_compute. reflexivity. Qed.

Example map_ooo : map_busy_status PyStr.lower_ascii (u"  OOO ") = 3%Z.
Proof. vm_compute. reflexivity. Qed.

Example map_yasumi : map_busy_status PyStr.lower_ascii (u"　休み　") = 3%Z.
Proof. vm_compute. reflexivity. Qed.

Example map_unknown : map_busy_status PyStr.lower_ascii (u"vacation") = 2%Z.
Proof. vm_compute. reflexivity. Qed.

Example strptime_0900 :
  PyTime.strptime (u"2024-05-01 09:00") = Some (mk_datetime 2024 5 1 9 0).
Proof. vm_compute. reflexivity. Qed.

Example strptime_short :
  PyTime.strptime (u"2024-5-1  9:5") = Some (mk_datetime 2024 5 1 9 5).
Proof. vm_compute. reflexivity. Qed.

Example strptime_rest : PyTime.strptime (u"2024-05-01 09:60") = None.
Proof. vm_compute. reflexivity. Qed.

Example strptime_feb30 : PyTime.strptime (u"2023-02-29 09:00") = None.
Proof. vm_compute. reflexivity. Qed.

Example strptime_fullwidth :
  PyTime.strptime (u"２０２４-05-01 09:00") = Some (mk_datetime 2024 5 1 9 0).
Proof. vm_compute. reflexivity. Qed.

(** ** Busy-status mapper *)

Lemma STATUS_MAP_labels (key : str) (code : Z) :
  STATUS_MAP !! key = Some code <-> key ∈ labels code.
Proof.
  unfold STATUS_MAP.
  rewrite <- elem_of_list_to_map
    by (refine (bool_decide_unpack _ _); vm_compute; exact I).
  split.
  - intros H.
    repeat (apply elem_of_cons in H as [H|H];
            [inversion H; subst; vm_compute labels; set_solver|]).
    by apply elem_of_nil in H.
  - unfold labels. intros H.
    repeat (case_match;
            [match goal with E : (_ =? _)%Z = true |- _ => apply Z.eqb_eq in E; subst end;
             repeat (apply elem_of_cons in H as [->|H]; [set_solver|]);
             by apply elem_of_nil in H|]).
    by apply elem_of_nil in H.
Qed.

Lemma STATUS_MAP_range (key : str) (code : Z) :
  STATUS_MAP !! key = Some code -> (0 <= code <= 4)%Z.
Proof.
  rewrite STATUS_MAP_labels. unfold labels.
  repeat (case_match;
          [match goal with E : (_ =? _)%Z = true |- _ => apply Z.eqb_eq in E; lia end|]).
  intros H'. by apply elem_of_nil in H'.
Qed.

Lemma STATUS_MAP_no_empty_key : STATUS_MAP !! ([] : str) = None.
Proof. vm_compute. reflexivity. Qed.

Lemma strip_nil : PyStr.strip [] = [].
Proof. reflexivity. Qed.

Lemma map_busy_status_lookup (lower : str -> str) (value : str) :
  map_busy_status lower value = default 2%Z (STATUS_MAP !! lower (PyStr.strip value)).
Proof.
  unfold map_busy_status.
  destruct (lower (PyStr.strip value)) as [|k key'] eqn:E; simpl; [|done].
  by rewrite STATUS_MAP_no_empty_key.
Qed.

(** C1. The busy-status mapper is a total function of the status string.
    When the trimmed, lowercased string is a key of the table the result
    is that key's code, and the key is one of the labels of that code
    (0 free, 1 tentative, 2 busy, 3 out of office, 4 working elsewhere);
    for every other string the result is 2, and so it is for the empty
    string; the result is always one of 0, 1, 2, 3, 4. *)
Theorem map_busy_status_total (lower : str -> str) (value : str) :
  let key := lower (PyStr.strip value) in
  let code := map_busy_status lower value in
  (forall c, STATUS_MAP !! key = Some c -> code = c /\ key ∈ labels c)
  /\ (STATUS_MAP !! key = None -> code = 2%Z)
  /\ (lower [] = [] -> map_busy_status lower [] = 2%Z)
  /\ (code = 0 \/ code = 1 \/ code = 2 \/ code = 3 \/ code = 4)%Z.
Proof.
  intros key code. subst code. rewrite !map_busy_status_lookup. fold key.
  split; [|split; [|split]].
  - intros c H. rewrite H. split; [done|]. by apply STATUS_MAP_labels.
  - intros H. by rewrite H.
  - intros H. by rewrite strip_nil, H, STATUS_MAP_no_empty_key.
  - destruct (STATUS_MAP !! key) as [c|] eqn:L; simpl; [|lia].
    apply STATUS_MAP_range in L. lia.
Qed.

(** The mapper on [" OOO "], on a label it does not know, and on the
    empty string, with ASCII lowercasing. *)
Lemma map_busy_status_total_witness :
  map_busy_status PyStr.lower_ascii (u" OOO ") = 3%Z
  /\ map_busy_status PyStr.lower_ascii (u"holiday") = 2%Z
  /\ map_busy_status PyStr.lower_ascii [] = 2%Z.
Proof.
  split; [|split].
  - apply (proj1 (map_busy_status_total PyStr.lower_ascii (u" OOO ")) 3%Z).
    vm_compute. reflexivity.
  - apply (proj1 (proj2 (map_busy_status_total PyStr.lower_ascii (u"holiday")))).
    vm_compute. reflexivity.
  - apply (proj1 (proj2 (proj2 (map_busy_status_total PyStr.lower_ascii [])))).
    reflexivity.
Defined.


(** ** The pattern consumes its input from the left *)

Lemma shrinking_digit : shrinking PyTime.digit.
Proof.
  intros [|c s] a r; simpl; [by intros ?%elem_of_nil|].
  destruct (PyTime.decimal c); [|by intros ?%elem_of_nil].
  intros [= -> ->]%list_elem_of_singleton. by apply suffix_cons_r.
Qed.

Lemma shrinking_range lo hi : shrinking (PyTime.range lo hi).
Proof.
  intros [|c s] a r; simpl; [by intros ?%elem_of_nil|].
  case_match; [|by intros ?%elem_of_nil].
  intros [= -> ->]%list_elem_of_singleton. by apply suffix_cons_r.
Qed.

Lemma shrinking_char k : shrinking (PyTime.char k).
Proof.
  intros [|c s] a r; simpl; [by intros ?%elem_of_nil|].
  case_match; [|by intros ?%elem_of_nil].
  intros [= -> ->]%list_elem_of_singleton. by apply suffix_cons_r.
Qed.

Lemma shrinking_spaces : shrinking PyTime.spaces.
Proof.
  intros s. induction s as [|c s IH]; intros a r; simpl; [by intros ?%elem_of_nil|].
  case_match; [|by intros ?%elem_of_nil].
  intros [Hin|[= -> ->]%list_elem_of_singleton]%elem_of_app.
  - apply suffix_cons_r. by eapply IH.
  - by apply suffix_cons_r.
Qed.

Lemma shrinking_bind {A B : Type} (m : PyTime.matcher A) (k : A -> PyTime.matcher B) :
  shrinking m -> (forall a, shrinking (k a)) ->
  shrinking (fun s => '(a, r) ← m s; k a r).
Proof.
  intros Hm Hk s b r ([a r1] & Hb & Ha)%list_elem_of_bind.
  etrans; [by eapply Hk|by eapply Hm].
Qed.

Lemma shrinking_alt {A : Type} (m1 m2 : PyTime.matcher A) :
  shrinking m1 -> shrinking m2 -> shrinking (fun s => m1 s ++ m2 s).
Proof. intros H1 H2 s a r [H|H]%elem_of_app; eauto. Qed.

Lemma shrinking_ret {A : Type} (a : A) : shrinking (fun s => [(a, s)]).
Proof. by intros s b r [= -> ->]%list_elem_of_singleton. Qed.

Lemma shrinking_two hi lo :
  shrinking hi -> shrinking lo -> shrinking (PyTime.two hi lo).
Proof.
  intros Hh Hl. unfold PyTime.two.
  apply shrinking_bind; [done|intros a].
  apply (shrinking_bind lo); [done|intros b]. apply shrinking_ret.
Qed.

Create HintDb shrink.
#[local] Hint Resolve shrinking_digit shrinking_range shrinking_char
  shrinking_spaces shrinking_two : shrink.

Lemma shrinking_re_Y : shrinking PyTime.re_Y.
Proof.
  unfold PyTime.re_Y.
  repeat (apply (shrinking_bind PyTime.digit); [auto with shrink|intros ?]).
  apply shrinking_ret.
Qed.

Lemma shrinking_re_m : shrinking PyTime.re_m.
Proof.
  unfold PyTime.re_m. repeat apply shrinking_alt; auto with shrink.
Qed.

Lemma shrinking_re_d : shrinking PyTime.re_d.
Proof.
  unfold PyTime.re_d. repeat apply shrinking_alt; auto with shrink.
  apply (shrinking_bind (PyTime.char 32)); [auto with shrink|intros ?].
  auto with shrink.
Qed.

Lemma shrinking_re_H : shrinking PyTime.re_H.
Proof.
  unfold PyTime.re_H. repeat apply shrinking_alt; auto with shrink.
Qed.

Lemma digit_end a s :
  (a, []) ∈ PyTime.digit s -> exists c, s = [c] /\ is_Some (PyTime.decimal c).
Proof.
  destruct s as [|c s]; simpl; [by intros ?%elem_of_nil|].
  destruct (PyTime.decimal c) eqn:E; [|by intros ?%elem_of_nil].
  intros [= -> <-]%list_elem_of_singleton. exists c. by rewrite E.
Qed.

Lemma re_M_end a s :
  (a, []) ∈ PyTime.re_M s ->
  exists p c, s = p ++ [c] /\ is_Some (PyTime.decimal c).
Proof.
  unfold PyTime.re_M, PyTime.two.
  intros [([x r] & ([y r'] & [= -> <-]%list_elem_of_singleton & Hlo)%list_elem_of_bind
            & Hhi)%list_elem_of_bind|Hd]%elem_of_app.
  - apply digit_end in Hlo as (c & -> & Hc).
    apply shrinking_range in Hhi as [k ->]. by exists k, c.
  - apply digit_end in Hd as (c & -> & Hc). by exists [], c.
Qed.

Lemma re_format_end dt s :
  (dt, []) ∈ PyTime.re_format s ->
  exists p c, s = p ++ [c] /\ is_Some (PyTime.decimal c).
Proof.
  unfold PyTime.re_format.
  intros ([Y r1] & H & HY)%list_elem_of_bind.
  apply list_elem_of_bind in H as ([? r2] & H & H1).
  apply list_elem_of_bind in H as ([m r3] & H & Hm).
  apply list_elem_of_bind in H as ([? r4] & H & H2).
  apply list_elem_of_bind in H as ([d r5] & H & Hd).
  apply list_elem_of_bind in H as ([? r6] & H & Hs).
  apply list_elem_of_bind in H as ([h r7] & H & Hh).
  apply list_elem_of_bind in H as ([? r8] & H & H3).
  apply list_elem_of_bind in H as ([M r9] & H & HM).
  apply list_elem_of_singleton in H as [= -> <-].
  apply re_M_end in HM as (p & c & -> & Hc).
  assert (p ++ [c] `suffix_of` s) as [k ->].
  { etrans; [by eapply shrinking_char|].
    etrans; [by eapply shrinking_re_H|].
    etrans; [by eapply shrinking_spaces|].
    etrans; [by eapply shrinking_re_d|].
    etrans; [by eapply shrinking_char|].
    etrans; [by eapply shrinking_re_m|].
    etrans; [by eapply shrinking_char|].
    by eapply shrinking_re_Y. }
  exists (k ++ p), c. by rewrite app_assoc.
Qed.

(** A string that [strptime] accepts ends with a decimal digit. *)
Lemma strptime_last_digit s dt :
  PyTime.strptime s = Some dt ->
  exists p c, s = p ++ [c] /\ is_Some (PyTime.decimal c).
Proof.
  unfold PyTime.strptime.
  destruct (PyTime.re_format s) as [|[dt' [|? ?]] l] eqn:E; try done.
  intros _. apply (re_format_end dt'). rewrite E. by left.
Qed.

Lemma strptime_trailing_space s : PyTime.strptime (s ++ u" ") = None.
Proof.
  destruct (PyTime.strptime (s ++ u" ")) as [dt|] eqn:E; [|done].
  apply strptime_last_digit in E as (p & c & E & Hc).
  change (u" ") with [32] in E. apply app_inj_tail in E as [_ <-].
  vm_compute in Hc. by destruct Hc.
Qed.

(** ** Per-row validation *)

(** [_parse_datetimes] gives both date-times and no error, or no
    date-time and one of the three reasons. *)
Lemma _parse_datetimes_cases (row : ScheduleRow) :
  (exists s e, _parse_datetimes row = (Some s, Some e, None))
  \/ (exists reason, _parse_datetimes row = (None, None, Some reason)
       /\ reason ∈ [reason_date_empty; reason_start_end; reason_order]).
Proof.
  unfold _parse_datetimes.
  destruct (negb (PyStr.truthy (date row))).
  { right. exists reason_date_empty. split; [reflexivity|]. by left. }
  destruct (negb (PyStr.truthy (start row)) || negb (PyStr.truthy (end_ row))).
  { right. exists reason_start_end. split; [reflexivity|]. right. by left. }
  destruct (PyTime.strptime (date row ++ u" " ++ start row)) as [s|];
    destruct (PyTime.strptime (date row ++ u" " ++ end_ row)) as [e|];
    try (right; exists reason_start_end; split; [reflexivity|]; right; by left).
  destruct (PyTime.le_dt e s).
  - right. exists reason_order. split; [reflexivity|]. right. right. by left.
  - left. by exists s, e.
Qed.

Lemma compare_dt_antisym (a b : datetime) :
  PyTime.compare_dt b a = CompOpp (PyTime.compare_dt a b).
Proof.
  unfold PyTime.compare_dt.
  rewrite (Z.compare_antisym (year a)), (Z.compare_antisym (month a)),
    (Z.compare_antisym (day a)), (Z.compare_antisym (hour a)),
    (Z.compare_antisym (minute a)).
  destruct (year a ?= year b)%Z, (month a ?= month b)%Z, (day a ?= day b)%Z,
    (hour a ?= hour b)%Z, (minute a ?= minute b)%Z; reflexivity.
Qed.

(** [end_dt <= start_dt] fails exactly when the start is before the end. *)
Lemma le_dt_false (s e : datetime) :
  PyTime.le_dt e s = false <-> PyTime.compare_dt s e = Lt.
Proof.
  unfold PyTime.le_dt. rewrite (compare_dt_antisym s e).
  destruct (PyTime.compare_dt s e); simpl; split; congruence.
Qed.

Lemma truthy_true (s : str) : PyStr.truthy s = true <-> s <> [].
Proof. destruct s; simpl; split; congruence. Qed.

Lemma truthy_false (s : str) : PyStr.truthy s = false <-> s = [].
Proof. destruct s; simpl; split; congruence. Qed.

Section Loop.

Context {Host : Type} (create : Host -> Appointment -> Host * option str).

Lemma register_loop_app (pre post : list ScheduleRow) (st : Run Host) :
  register_loop create (pre ++ post) st
  = register_loop create post (register_loop create pre st).
Proof. apply foldl_app. Qed.

Lemma register_row_error (row : ScheduleRow) (reason : str) (st : Run Host) :
  _parse_datetimes row = (None, None, Some reason) ->
  register_row create row st = rejected row reason st.
Proof. unfold register_row. by intros ->. Qed.

Lemma register_loop_error (row : ScheduleRow) (reason : str)
    (pre post : list ScheduleRow) (st : Run Host) :
  _parse_datetimes row = (None, None, Some reason) ->
  register_loop create (pre ++ row :: post) st
  = register_loop create post (rejected row reason (register_loop create pre st)).
Proof.
  intros H. rewrite register_loop_app. simpl.
  by rewrite (register_row_error _ _ _ H).
Qed.

End Loop.

(** C4. A row whose date, start and end are not empty, whose date and
    start, and date and end, read as date-times under YYYY-MM-DD HH:MM,
    the start before the end, passes validation with these two
    date-times; date 2024-05-01 with start 09:00 and end 10:00 gives
    2024-05-01T09:00 and 2024-05-01T10:00. *)
Theorem valid_row_accepted :
  (forall (row : ScheduleRow) (s e : datetime),
      date row <> [] -> start row <> [] -> end_ row <> [] ->
      PyTime.strptime (date row ++ u" " ++ start row) = Some s ->
      PyTime.strptime (date row ++ u" " ++ end_ row) = Some e ->
      PyTime.compare_dt s e = Lt ->
      _parse_datetimes row = (Some s, Some e, None))
  /\ (forall row : ScheduleRow,
        date row = u"2024-05-01" -> start row = u"09:00" -> end_ row = u"10:00" ->
        _parse_datetimes row
        = (Some (mk_datetime 2024 5 1 9 0), Some (mk_datetime 2024 5 1 10 0), None)).
Proof.
  assert (forall (row : ScheduleRow) (s e : datetime),
      date row <> [] -> start row <> [] -> end_ row <> [] ->
      PyTime.strptime (date row ++ u" " ++ start row) = Some s ->
      PyTime.strptime (date row ++ u" " ++ end_ row) = Some e ->
      PyTime.compare_dt s e = Lt ->
      _parse_datetimes row = (Some s, Some e, None)) as General.
  { intros row s e Hd Hs He Ps Pe Hlt. unfold _parse_datetimes.
    apply truthy_true in Hd, Hs, He. rewrite Hd, Hs, He, Ps, Pe. simpl.
    apply le_dt_false in Hlt. by rewrite Hlt. }
  split; [exact General|].
  intros row Hd Hs He. apply General.
  - by rewrite Hd.
  - by rewrite Hs.
  - by rewrite He.
  - rewrite Hd, Hs. vm_compute. reflexivity.
  - rewrite Hd, He. vm_compute. reflexivity.
  - vm_compute. reflexivity.
Qed.

(** The row of the example, with a subject and a status. *)
Lemma valid_row_accepted_witness :
  _parse_datetimes
    (mk_ScheduleRow 2 (u"2024-05-01") (u"09:00") (u"10:00") (u"Review") (u"busy") [] [] 2)
  = (Some (mk_datetime 2024 5 1 9 0), Some (mk_datetime 2024 5 1 10 0), None).
Proof.
  apply (proj1 valid_row_accepted).
  - vm_compute. discriminate.
  - vm_compute. discriminate.
  - vm_compute. discriminate.
  - vm_compute. reflexivity.
  - vm_compute. reflexivity.
  - vm_compute. reflexivity.
Defined.

(** C5. A row with a date, whose start and end read as date-times and
    whose end is not after its start (the same time included), fails
    validation with the reason that End must be after Start and with no
    date-time; in a run it adds one failure line, nothing is handed to
    Outlook for it, and the loop goes on with the rows after it. *)
Theorem end_not_after_start_rejected (row : ScheduleRow) (s e : datetime) :
  date row <> [] ->
  PyTime.strptime (date row ++ u" " ++ start row) = Some s ->
  PyTime.strptime (date row ++ u" " ++ end_ row) = Some e ->
  PyTime.compare_dt s e <> Lt ->
  _parse_datetimes row = (None, None, Some reason_order)
  /\ forall (Host : Type) (create : Host -> Appointment -> Host * option str)
       (pre post : list ScheduleRow) (st : Run Host),
      register_loop create (pre ++ row :: post) st
      = register_loop create post
          (rejected row reason_order (register_loop create pre st)).
Proof.
  intros Hd Ps Pe Hle.
  assert (_parse_datetimes row = (None, None, Some reason_order)) as Hp.
  { assert (start row <> []) as Hs.
    { intros E. rewrite E, app_nil_r, strptime_trailing_space in Ps. discriminate. }
    assert (end_ row <> []) as He.
    { intros E. rewrite E, app_nil_r, strptime_trailing_space in Pe. discriminate. }
    unfold _parse_datetimes.
    apply truthy_true in Hd, Hs, He. rewrite Hd, Hs, He, Ps, Pe. simpl.
    destruct (PyTime.le_dt e s) eqn:L; [reflexivity|].
    by apply le_dt_false in L. }
  split; [exact Hp|].
  intros Host create pre post st. by apply register_loop_error.
Qed.

(** A row whose end equals its start, between two good rows, with the
    counting stand-in for Outlook: two appointments are handed over. *)
Lemma end_not_after_start_rejected_witness :
  let row := mk_ScheduleRow 3 (u"2024-05-01") (u"09:00") (u"09:00") (u"b") [] [] [] 2 in
  let r1 := mk_ScheduleRow 2 (u"2024-05-01") (u"09:00") (u"10:00") (u"a") [] [] [] 2 in
  let r3 := mk_ScheduleRow 4 (u"2024-05-02") (u"13:00") (u"14:30") (u"c") [] [] [] 2 in
  let st := mk_Run (mk_App None [] [r1; row; r3] [] [] false []) 0%nat [] in
  _parse_datetimes row = (None, None, Some reason_order)
  /\ length (run_calls (register_loop (counting_create 9) ([r1] ++ row :: [r3]) st)) = 2%nat.
Proof.
  intros row r1 r3 st.
  assert (date row <> []) as Hd by (vm_compute; discriminate).
  assert (PyTime.strptime (date row ++ u" " ++ start row) = Some (mk_datetime 2024 5 1 9 0))
    as Ps by (vm_compute; reflexivity).
  assert (PyTime.strptime (date row ++ u" " ++ end_ row) = Some (mk_datetime 2024 5 1 9 0))
    as Pe by (vm_compute; reflexivity).
  assert (PyTime.compare_dt (mk_datetime 2024 5 1 9 0) (mk_datetime 2024 5 1 9 0) <> Lt)
    as Hle by (vm_compute; discriminate).
  destruct (end_not_after_start_rejected row _ _ Hd Ps Pe Hle) as [Hp Hrun].
  split; [exact Hp|].
  rewrite Hrun. vm_compute. reflexivity.
Defined.

(** C6. A row whose date is empty fails validation with the reason that
    the date is empty, whatever its other fields hold; in a run it adds
    one failure line, nothing is handed to Outlook for it, and the loop
    goes on with the rows after it. *)
Theorem empty_date_rejected (row : ScheduleRow) :
  date row = [] ->
  _parse_datetimes row = (None, None, Some reason_date_empty)
  /\ forall (Host : Type) (create : Host -> Appointment -> Host * option str)
       (pre post : list ScheduleRow) (st : Run Host),
      register_loop create (pre ++ row :: post) st
      = register_loop create post
          (rejected row reason_date_empty (register_loop create pre st)).
Proof.
  intros Hd.
  assert (_parse_datetimes row = (None, None, Some reason_date_empty)) as Hp.
  { unfold _parse_datetimes. rewrite Hd. reflexivity. }
  split; [exact Hp|].
  intros Host create pre post st. by apply register_loop_error.
Qed.

(** A row without date but with good times, before a good row: only the
    good row reaches the stand-in for Outlook. *)
Lemma empty_date_rejected_witness :
  let row := mk_ScheduleRow 2 [] (u"09:00") (u"10:00") (u"a") (u"busy") [] [] 2 in
  let r2 := mk_ScheduleRow 3 (u"2024-05-02") (u"13:00") (u"14:30") (u"c") [] [] [] 2 in
  let st := mk_Run (mk_App None [] [row; r2] [] [] false []) 0%nat [] in
  _parse_datetimes row = (None, None, Some reason_date_empty)
  /\ run_calls (register_loop (counting_create 9) ([] ++ row :: [r2]) st)
     = [appointment_of r2 (mk_datetime 2024 5 2 13 0) (mk_datetime 2024 5 2 14 30)].
Proof.
  intros row r2 st.
  destruct (empty_date_rejected row eq_refl) as [Hp Hrun].
  split; [exact Hp|].
  rewrite Hrun. vm_compute. reflexivity.
Defined.

(** ** The log of a run *)

Lemma ok_line_kind (row : ScheduleRow) :
  is_success_line (ok_line row) = true /\ is_failure_line (ok_line row) = false.
Proof. split; vm_compute; reflexivity. Qed.

Lemma host_ng_line_kind (row : ScheduleRow) (exc : str) :
  is_failure_line (host_ng_line row exc) = true
  /\ is_success_line (host_ng_line row exc) = false.
Proof. split; vm_compute; reflexivity. Qed.

Lemma dispatch_ng_line_kind (exc : str) :
  is_failure_line (dispatch_ng_line exc) = true
  /\ is_success_line (dispatch_ng_line exc) = false.
Proof. split; vm_compute; reflexivity. Qed.

Lemma end_line_kind :
  is_failure_line end_line = false /\ is_success_line end_line = false.
Proof. split; vm_compute; reflexivity. Qed.

Lemma finish_log (app : App) :
  log_text (finish app) = log_text app ++ [end_line]
  /\ rows (finish app) = rows app
  /\ register_button (finish app) = true.
Proof. repeat split. Qed.

(** C7. When Outlook cannot be started the run stops at once: nothing
    is handed to Outlook for any row, and the log gains one failure
    line, followed only by the closing line of the run. *)
Theorem host_unavailable_aborts (Host : Type)
    (create : Host -> Appointment -> Host * option str) (exc : str) (app : App) :
  let run := _register_appointments create (Failed exc) app in
  run.2 = []
  /\ log_text run.1 = log_text app ++ [dispatch_ng_line exc; end_line]
  /\ filter (fun line => is_failure_line line = true) [dispatch_ng_line exc; end_line]
     = [dispatch_ng_line exc]
  /\ rows run.1 = rows app
  /\ register_button run.1 = true.
Proof.
  unfold _register_appointments. cbn [fst snd].
  destruct (finish_log (_append_log (dispatch_ng_line exc) app)) as (Hlog & Hrows & Hbutton).
  split; [reflexivity|]. split; [|split; [|split]].
  - rewrite Hlog. unfold _append_log. cbn [log_text]. by rewrite <- app_assoc.
  - rewrite filter_cons_True by apply dispatch_ng_line_kind.
    rewrite filter_cons_False by (rewrite (proj1 end_line_kind); discriminate).
    reflexivity.
  - by rewrite Hrows.
  - exact Hbutton.
Qed.

Section ThreeRows.

Context {Host : Type} (create : Host -> Appointment -> Host * option str).

Lemma register_row_ok (row : ScheduleRow) (s e : datetime) (st : Run Host) (h : Host) :
  _parse_datetimes row = (Some s, Some e, None) ->
  create (run_host st) (appointment_of row s e) = (h, None) ->
  register_row create row st
  = mk_Run (_append_log (ok_line row) (run_app st)) h
      (run_calls st ++ [appointment_of row s e]).
Proof. unfold register_row. by intros -> ->. Qed.

Lemma register_row_host_error (row : ScheduleRow) (s e : datetime) (st : Run Host)
    (h : Host) (exc : str) :
  _parse_datetimes row = (Some s, Some e, None) ->
  create (run_host st) (appointment_of row s e) = (h, Some exc) ->
  register_row create row st
  = mk_Run (_append_log (host_ng_line row exc) (run_app st)) h
      (run_calls st ++ [appointment_of row s e]).
Proof. unfold register_row. by intros -> ->. Qed.

End ThreeRows.

(** C8. Three rows that pass validation, Outlook refusing the second
    and taking the first and the third: all three are handed to Outlook,
    the log gains a success line, a failure line and a success line in
    the order of the rows, then the closing line of the run; so two
    success lines, one failure line, and the run is completed. *)
Theorem host_failure_isolated (Host : Type)
    (create : Host -> Appointment -> Host * option str)
    (r1 r2 r3 : ScheduleRow) (s1 e1 s2 e2 s3 e3 : datetime)
    (h0 h1 h2 h3 : Host) (exc : str) (app : App) :
  rows app = [r1; r2; r3] ->
  _parse_datetimes r1 = (Some s1, Some e1, None) ->
  _parse_datetimes r2 = (Some s2, Some e2, None) ->
  _parse_datetimes r3 = (Some s3, Some e3, None) ->
  create h0 (appointment_of r1 s1 e1) = (h1, None) ->
  create h1 (appointment_of r2 s2 e2) = (h2, Some exc) ->
  create h2 (appointment_of r3 s3 e3) = (h3, None) ->
  let run := _register_appointments create (Connected h0) app in
  let lines := [ok_line r1; host_ng_line r2 exc; ok_line r3; end_line] in
  run.2 = [appointment_of r1 s1 e1; appointment_of r2 s2 e2; appointment_of r3 s3 e3]
  /\ log_text run.1 = log_text app ++ lines
  /\ filter (fun line => is_success_line line = true) lines = [ok_line r1; ok_line r3]
  /\ filter (fun line => is_failure_line line = true) lines = [host_ng_line r2 exc]
  /\ register_button run.1 = true.
Proof.
  intros Hrows P1 P2 P3 C1 C2 C3 run lines. subst run lines.
  unfold _register_appointments, register_loop. rewrite Hrows. cbn [foldl].
  erewrite (register_row_ok create r1); [|exact P1|exact C1].
  erewrite (register_row_host_error create r2); [|exact P2|exact C2].
  erewrite (register_row_ok create r3); [|exact P3|exact C3].
  cbn [fst snd run_app run_calls run_host].
  split; [reflexivity|]. split.
  { rewrite (proj1 (finish_log _)). unfold _append_log. cbn [log_text].
    by rewrite <- !app_assoc. }
  pose proof (ok_line_kind r1) as [O1 O1'].
  pose proof (ok_line_kind r3) as [O3 O3'].
  pose proof (host_ng_line_kind r2 exc) as [N2 N2'].
  pose proof end_line_kind as [E E'].
  split; [|split; [|reflexivity]].
  - rewrite filter_cons_True by done.
    rewrite filter_cons_False by (rewrite N2'; discriminate).
    rewrite filter_cons_True by done.
    rewrite filter_cons_False by (rewrite E'; discriminate).
    reflexivity.
  - rewrite filter_cons_False by (rewrite O1'; discriminate).
    rewrite filter_cons_True by done.
    rewrite filter_cons_False by (rewrite O3'; discriminate).
    rewrite filter_cons_False by (rewrite E; discriminate).
    reflexivity.
Qed.

(** Three good rows with the stand-in for Outlook that refuses its second
    appointment. *)
Lemma host_failure_isolated_witness :
  let r1 := mk_ScheduleRow 2 (u"2024-05-01") (u"09:00") (u"10:00") (u"a") (u"busy") [] [] 2 in
  let r2 := mk_ScheduleRow 3 (u"2024-05-01") (u"11:00") (u"12:00") (u"b") (u"free") [] [] 0 in
  let r3 := mk_ScheduleRow 4 (u"2024-05-02") (u"13:00") (u"14:30") [] (u"ooo") (u"Tokyo") [] 3 in
  let app := mk_App None [] [r1; r2; r3] [] [] false [] in
  let run := _register_appointments (counting_create 1) (Connected 0%nat) app in
  length run.2 = 3%nat
  /\ log_text run.1 = [ok_line r1; host_ng_line r2 (u"error"); ok_line r3; end_line].
Proof.
  intros r1 r2 r3 app run.
  destruct (host_failure_isolated nat (counting_create 1) r1 r2 r3
              (mk_datetime 2024 5 1 9 0) (mk_datetime 2024 5 1 10 0)
              (mk_datetime 2024 5 1 11 0) (mk_datetime 2024 5 1 12 0)
              (mk_datetime 2024 5 2 13 0) (mk_datetime 2024 5 2 14 30)
              0%nat 1%nat 2%nat 3%nat (u"error") app)
    as (Hcalls & Hlog & _); try (vm_compute; reflexivity).
  split.
  - subst run. rewrite Hcalls. reflexivity.
  - subst run. rewrite Hlog. reflexivity.
Defined.

(** ** Row dictionaries *)

Lemma get_set_eq k v d : Csv.get k (Csv.set k v d) = v.
Proof.
  induction d as [|[k' v'] d IH]; simpl.
  - by rewrite decide_True.
  - destruct (decide (k = k')) as [->|Hne]; simpl.
    + by rewrite decide_True.
    + by rewrite decide_False.
Qed.

Lemma get_set_ne k k' v d : k <> k' -> Csv.get k (Csv.set k' v d) = Csv.get k d.
Proof.
  intros Hne. induction d as [|[k'' v''] d IH]; simpl.
  - by rewrite decide_False.
  - destruct (decide (k' = k'')) as [->|Hne']; simpl.
    + by rewrite !decide_False.
    + destruct (decide (k = k'')); [done|exact IH].
Qed.

Lemma named_set k v d :
  named d -> (forall l, v <> Csv.VList l) -> named (Csv.set (Some k) v d).
Proof.
  intros Hd Hv. induction Hd as [|[k' v'] d Hkv Hd IH]; simpl.
  - by repeat constructor.
  - destruct (decide (Some k = k')) as [<-|Hne].
    + constructor; [done|exact Hd].
    + constructor; [exact Hkv|exact IH].
Qed.

Lemma named_zip names row d :
  named d ->
  named (foldl (fun d kv => Csv.set (Some kv.1) (Csv.VStr kv.2) d) d (zip names row)).
Proof.
  revert d. induction (zip names row) as [|[k v] l IH]; intros d Hd; simpl; [done|].
  apply IH. by apply named_set.
Qed.

Lemma named_restval names d :
  named d -> named (foldl (fun d k => Csv.set (Some k) Csv.VNone d) d names).
Proof.
  revert d. induction names as [|k l IH]; intros d Hd; simpl; [done|].
  apply IH. by apply named_set.
Qed.

Lemma set_restkey v d : named d -> Csv.set None v d = d ++ [(None, v)].
Proof.
  induction 1 as [|[k' v'] d [Hk _] Hd IH]; simpl; [done|].
  simpl in Hk. rewrite decide_False by done. by rewrite IH.
Qed.

(** The dictionary of a record: named entries, then the surplus fields
    under the key [None] when the record is longer than the header. *)
Lemma row_dict_shape names row :
  exists d, named d
    /\ (Csv.row_dict names row = d
        \/ (length names < length row)%nat
           /\ Csv.row_dict names row = d ++ [(None, Csv.VList (drop (length names) row))]).
Proof.
  unfold Csv.row_dict.
  pose proof (named_zip names row [] (Forall_nil_2 _)) as Hz.
  destruct (length names <? length row)%nat eqn:E1.
  - eexists. split; [exact Hz|]. right. split; [by apply Nat.ltb_lt|].
    by apply set_restkey.
  - destruct (length row <? length names)%nat eqn:E2.
    + eexists. split; [|by left]. by apply named_restval.
    + eexists. split; [exact Hz|by left].
Qed.

Lemma get_named_app k d tail :
  Csv.get (Some k) (d ++ [(None, tail)]) = Csv.get (Some k) d.
Proof.
  induction d as [|[k' v'] d IH]; simpl; [done|].
  by rewrite IH.
Qed.

Lemma get_VStr_values k s d :
  Csv.get k d = Csv.VStr s -> Csv.VStr s ∈ Csv.values d.
Proof.
  induction d as [|[k' v'] d IH]; simpl; [done|].
  destruct (decide (k = k')).
  - intros ->. by left.
  - intros H. right. by apply IH.
Qed.

(** ** The loop body of the loader *)

Lemma strip_value_or_empty_str s :
  strip_value (or_empty (Csv.VStr s)) = Return (PyStr.strip s).
Proof. by destruct s. Qed.

Lemma field_blank raw name : blank (Csv.get (Some name) raw) -> field raw name = Return [].
Proof.
  unfold field. intros [->|(s & -> & Hs)]; [done|].
  by rewrite strip_value_or_empty_str, Hs.
Qed.

Lemma any_stripped_found vs tail s :
  Forall (fun v => forall l, v <> Csv.VList l) vs ->
  Csv.VStr s ∈ vs -> PyStr.strip s <> [] ->
  any_stripped (vs ++ tail) = Return true.
Proof.
  intros Hvs Hin Hs. induction Hvs as [|v vs Hv Hvs IH]; [by apply elem_of_nil in Hin|].
  simpl. destruct v as [|s'|l]; [| |by destruct (Hv l)].
  - simpl. apply IH. by apply elem_of_cons in Hin as [?|?].
  - rewrite strip_value_or_empty_str. simpl.
    destruct (PyStr.strip s') eqn:E; simpl; [|done].
    apply IH. apply elem_of_cons in Hin as [[= ->]|?]; [by rewrite E in Hs|done].
Qed.

Lemma named_values d : named d -> Forall (fun v => forall l, v <> Csv.VList l) (Csv.values d).
Proof.
  unfold Csv.values. induction 1 as [|[k v] d [_ Hv] Hd IH]; simpl; by constructor.
Qed.

Lemma any_stripped_row_dict names row k s :
  Csv.get (Some k) (Csv.row_dict names row) = Csv.VStr s -> PyStr.strip s <> [] ->
  any_stripped (Csv.values (Csv.row_dict names row)) = Return true.
Proof.
  destruct (row_dict_shape names row) as (d & Hd & [->|[_ ->]]); intros Hget Hs.
  - rewrite <- (app_nil_r (Csv.values d)).
    eapply any_stripped_found; [by apply named_values| |done].
    by eapply get_VStr_values.
  - rewrite get_named_app in Hget. unfold Csv.values. rewrite map_app.
    eapply any_stripped_found; [by apply named_values| |done].
    by eapply get_VStr_values.
Qed.

(** A further column with a name in the header. The blank-row test looks
    at every named column of the record: a record whose seven required
    fields are empty or white space, and which has something else under
    a further name of the header, is not passed over; the loader keeps
    it as a row with seven empty strings and busy code 2. *)
Lemma extra_column_keeps_row (lower : str -> str) (names row : list str)
    (index : Z) (k s : str) :
  lower [] = [] ->
  (forall name, name ∈ EXPECTED_FIELDS ->
                blank (Csv.get (Some name) (Csv.row_dict names row))) ->
  Csv.get (Some k) (Csv.row_dict names row) = Csv.VStr s ->
  PyStr.strip s <> [] ->
  load_row lower index (Csv.row_dict names row)
  = Return (Some (mk_ScheduleRow index [] [] [] [] [] [] [] 2)).
Proof.
  intros Hlower Hblank Hget Hs. unfold load_row.
  rewrite (any_stripped_row_dict names row k s Hget Hs).
  cbn [mbind result_bind negb].
  rewrite !field_blank by (apply Hblank; vm_compute; set_solver).
  cbn [mbind result_bind].
  replace (map_busy_status lower []) with 2%Z; [done|].
  unfold map_busy_status. by rewrite strip_nil, Hlower.
Qed.

(** A header with an eighth column, and a record that is blank but for
    that column: the loader keeps it, as line 2. *)
Lemma extra_column_keeps_row_witness :
  let names := EXPECTED_FIELDS ++ [u"Memo"] in
  let row := [ []; []; u" "; []; []; []; []; u"note" ] in
  load_row PyStr.lower_ascii 2 (Csv.row_dict names row)
  = Return (Some (mk_ScheduleRow 2 [] [] [] [] [] [] [] 2))
  /\ _load_csv PyStr.lower_ascii [names; row]
     = Return [mk_ScheduleRow 2 [] [] [] [] [] [] [] 2].
Proof.
  intros names row. split; [|vm_compute; reflexivity].
  apply (extra_column_keeps_row PyStr.lower_ascii names row 2 (u"Memo") (u"note")).
  - reflexivity.
  - intros name Hin. vm_compute in Hin.
    repeat (apply elem_of_cons in Hin as [->|Hin]);
      [..|by apply elem_of_nil in Hin];
      first [ by (right; exists []; split; vm_compute; reflexivity)
            | by (right; exists [32]; split; vm_compute; reflexivity) ].
  - vm_compute. reflexivity.
  - vm_compute. discriminate.
Defined.

(** ** Loads that go wrong *)

(** C2. A file with the seven required names as its header, and one
    record of seven empty fields followed by an eighth: the header is
    there and lacks nothing, and the load still fails, with an
    [AttributeError] raised by the blank-row test. *)
Theorem load_surplus_field_raises (lower : str -> str) :
  let records := [ EXPECTED_FIELDS; [ []; []; []; []; []; []; []; u"x" ] ] in
  Csv.fieldnames records = Some EXPECTED_FIELDS
  /\ filter (fun field => field ∉ EXPECTED_FIELDS) EXPECTED_FIELDS = []
  /\ _load_csv lower records = Raise AttributeError.
Proof. repeat split; vm_compute; reflexivity. Qed.

(** C3. A file with a header, a record, an empty line and another
    record: the second record stands on line 4 and is given row number 3. *)
Theorem load_empty_line_renumbers (lower : str -> str) :
  let a := [ u"2024-05-01"; u"09:00"; u"10:00"; u"a"; u"busy"; []; [] ] in
  let b := [ u"2024-05-02"; u"09:00"; u"10:00"; u"b"; u"free"; []; [] ] in
  let records := [ EXPECTED_FIELDS; a; []; b ] in
  records !! 3%nat = Some b
  /\ line_number 3 = 4%Z
  /\ _load_csv lower records
     = Return
         [ mk_ScheduleRow 2 (u"2024-05-01") (u"09:00") (u"10:00") (u"a") (u"busy") [] []
             (map_busy_status lower (u"busy"));
           mk_ScheduleRow 3 (u"2024-05-02") (u"09:00") (u"10:00") (u"b") (u"free") [] []
             (map_busy_status lower (u"free")) ].
Proof. repeat split; vm_compute; reflexivity. Qed.

(** C10. The blank-row test and a column beyond the seven. Under the
    seven required names, the record of seven empty fields and an eighth
    field x has all its required fields empty and its eighth field in
    the list under the key [None]; the loop body does not keep it as a
    row: the blank-row test raises [AttributeError] on that list, and
    the load of the file with that header and that record fails with
    it. With an eighth name in the header the same record is kept, as
    the row of line 2 with seven empty strings. *)
Theorem surplus_column_row_raises (lower : str -> str) :
  let row := [ []; []; []; []; []; []; []; u"x" ] in
  Forall (fun name => Csv.get (Some name) (Csv.row_dict EXPECTED_FIELDS row) = Csv.VStr [])
    EXPECTED_FIELDS
  /\ Csv.get None (Csv.row_dict EXPECTED_FIELDS row) = Csv.VList [u"x"]
  /\ load_row lower 2 (Csv.row_dict EXPECTED_FIELDS row) = Raise AttributeError
  /\ _load_csv lower [EXPECTED_FIELDS; row] = Raise AttributeError
  /\ _load_csv_path lower [EXPECTED_FIELDS; row] None = LoadFails (Raised AttributeError)
  /\ load_row lower 2 (Csv.row_dict (EXPECTED_FIELDS ++ [u"Memo"]) row)
     = Return (Some (mk_ScheduleRow 2 [] [] [] [] [] [] [] (map_busy_status lower [])))
  /\ _load_csv lower [EXPECTED_FIELDS ++ [u"Memo"]; row]
     = Return [mk_ScheduleRow 2 [] [] [] [] [] [] [] (map_busy_status lower [])].
Proof.
  split; [|split; [|split; [|split; [|split; [|split]]]]].
  - repeat constructor.
  - vm_compute. reflexivity.
  - vm_compute. reflexivity.
  - vm_compute. reflexivity.
  - vm_compute. reflexivity.
  - vm_compute. reflexivity.
  - vm_compute. reflexivity.
Qed.

(** ** The row list of the application *)

Lemma register_row_rows {Host : Type} (create : Host -> Appointment -> Host * option str)
    (row : ScheduleRow) (st : Run Host) :
  rows (run_app (register_row create row st)) = rows (run_app st).
Proof.
  unfold register_row.
  destruct (_parse_datetimes row) as [[[s|] [e|]] [reason|]]; try reflexivity.
  by destruct (create (run_host st) (appointment_of row s e)) as [h [exc|]].
Qed.

Lemma register_loop_rows {Host : Type} (create : Host -> Appointment -> Host * option str)
    (l : list ScheduleRow) (st : Run Host) :
  rows (run_app (register_loop create l st)) = rows (run_app st).
Proof.
  revert st. induction l as [|row l IH]; intros st; [done|].
  unfold register_loop in *. cbn [foldl]. by rewrite IH, register_row_rows.
Qed.

Lemma _register_appointments_rows {Host : Type}
    (create : Host -> Appointment -> Host * option str) (d : dispatched Host) (app : App) :
  rows (_register_appointments create d app).1 = rows app.
Proof.
  destruct d as [outlook|exc]; unfold _register_appointments; cbn [fst].
  - rewrite (proj1 (proj2 (finish_log _))). by rewrite register_loop_rows.
  - by rewrite (proj1 (proj2 (finish_log _))).
Qed.

Lemma on_register_rows {Host : Type}
    (create : Host -> Appointment -> Host * option str) (modules : bool)
    (d : dispatched Host) (app : App) :
  rows (on_register create modules d app).1 = rows app.
Proof.
  unfold on_register. case_bool_decide; [done|].
  destruct modules; [|done]. cbn [negb]. by rewrite _register_appointments_rows.
Qed.

(** C9. Choosing a file changes the application in one step or not at
    all. When the load fails with a format error, the path, the row
    list, the table and the log stay as they were (the error goes to a
    message box); when it succeeds, the new list takes the place of the
    old one, together with the path, the table and one log line; when it
    fails otherwise, or the dialog is cancelled, nothing changes. No
    later action changes the row list: a submission run leaves it as it
    was. *)
Theorem select_csv_atomic (lower path_str : str -> str) (file_path : str)
    (records : list (list str)) (app : App) :
  let after := select_csv lower path_str file_path records app in
  (forall msg, _load_csv lower records = Raise (ValueError msg) ->
     csv_path after.1 = csv_path app /\ path_var after.1 = path_var app
     /\ rows after.1 = rows app /\ tree after.1 = tree app
     /\ log_text after.1 = log_text app /\ after.2 = None)
  /\ (forall new, file_path <> [] -> _load_csv lower records = Return new ->
        rows after.1 = new
        /\ csv_path after.1 = Some (path_str file_path)
        /\ path_var after.1 = path_str file_path
        /\ length (tree after.1) = length new
        /\ length (log_text after.1) = S (length (log_text app))
        /\ after.2 = None)
  /\ (_load_csv lower records = Raise AttributeError \/ file_path = [] ->
        after.1 = app)
  /\ (forall (Host : Type) (create : Host -> Appointment -> Host * option str)
        (modules : bool) (d : dispatched Host),
        rows (on_register create modules d app).1 = rows app
        /\ rows (_register_appointments create d app).1 = rows app).
Proof.
  intros after. subst after. unfold select_csv.
  split; [|split; [|split]].
  - intros msg ->. by destruct (negb (PyStr.truthy file_path)).
  - intros new Hpath ->. apply truthy_true in Hpath. rewrite Hpath. cbn [negb fst snd].
    unfold _append_log, _refresh_tree.
    cbn [rows csv_path path_var tree log_text].
    rewrite length_imap, length_app. cbn [length].
    repeat split; lia.
  - intros [->| ->]; [|done]. by destruct (negb (PyStr.truthy file_path)).
  - intros Host create modules d. split.
    + apply on_register_rows.
    + apply _register_appointments_rows.
Qed.

(** An application holding one row: a file without the Date column
    leaves it alone, a good file of two records replaces the row. *)
Lemma select_csv_atomic_witness :
  let old := mk_ScheduleRow 2 (u"2024-04-01") (u"09:00") (u"10:00") (u"old") [] [] [] 2 in
  let app := mk_App (Some (u"old.csv")) (u"old.csv") [old] [] [] true [] in
  let bad := [ [ u"Start"; u"End"; u"Subject"; u"Status"; u"Location"; u"Body" ];
               [ u"09:00"; u"10:00"; u"a"; u"busy"; []; [] ] ] in
  let good := [ EXPECTED_FIELDS;
                [ u"2024-05-01"; u"09:00"; u"10:00"; u"a"; u"busy"; []; [] ];
                [ u"2024-05-02"; u"13:00"; u"14:00"; u"b"; u"free"; []; [] ] ] in
  rows (select_csv PyStr.lower_ascii id (u"new.csv") bad app).1 = [old]
  /\ length (rows (select_csv PyStr.lower_ascii id (u"new.csv") good app).1) = 2%nat.
Proof.
  intros old app bad good. split.
  - destruct (select_csv_atomic PyStr.lower_ascii id (u"new.csv") bad app) as [H _].
    destruct (H (bad_header_message [u"Date"])) as (_ & _ & Hrows & _).
    + vm_compute. reflexivity.
    + exact Hrows.
  - destruct (select_csv_atomic PyStr.lower_ascii id (u"new.csv") good app) as (_ & H & _).
    destruct (H [ mk_ScheduleRow 2 (u"2024-05-01") (u"09:00") (u"10:00") (u"a") (u"busy") [] [] 2;
                  mk_ScheduleRow 3 (u"2024-05-02") (u"13:00") (u"14:00") (u"b") (u"free") [] [] 0 ])
      as (Hrows & _).
    + vm_compute. discriminate.
    + vm_compute. reflexivity.
    + rewrite Hrows. reflexivity.
Defined.

(** ** Loads in general *)

Lemma load_no_header (lower : str -> str) :
  _load_csv lower [] = Raise (ValueError no_header_message).
Proof. reflexivity. Qed.

(** A header that lacks required names: the message lists the names of
    [EXPECTED_FIELDS] that the header does not have, in that order, and
    no other. *)
Lemma load_missing_fields (lower : str -> str) (headers : list str)
    (data : list (list str)) :
  let missing := filter (fun field => field ∉ headers) EXPECTED_FIELDS in
  missing <> [] ->
  _load_csv lower (headers :: data) = Raise (ValueError (bad_header_message missing))
  /\ forall name, name ∈ missing <-> name ∈ EXPECTED_FIELDS /\ name ∉ headers.
Proof.
  intros missing Hm. split.
  - unfold _load_csv. cbn [Csv.fieldnames head]. fold missing.
    by rewrite bool_decide_eq_true_2.
  - intros name. unfold missing. rewrite list_elem_of_filter. tauto.
Qed.

Lemma strip_value_raises v e : strip_value v = Raise e -> e = AttributeError.
Proof. destruct v; simpl; congruence. Qed.

Lemma any_stripped_raises vs e : any_stripped vs = Raise e -> e = AttributeError.
Proof.
  induction vs as [|v vs IH]; simpl; [done|].
  destruct (strip_value (or_empty v)) as [s|e'] eqn:E; simpl.
  - destruct (PyStr.truthy s); [done|exact IH].
  - intros [= <-]. by eapply strip_value_raises.
Qed.

Lemma load_row_raises lower index raw e :
  load_row lower index raw = Raise e -> e = AttributeError.
Proof.
  unfold load_row.
  destruct (any_stripped (Csv.values raw)) as [[|]|e'] eqn:E; cbn [mbind result_bind negb].
  - unfold field.
    repeat (match goal with
            | |- context [strip_value ?v] =>
                let E' := fresh "E" in
                destruct (strip_value v) eqn:E'; cbn [mbind result_bind];
                [|intros [= <-]; by eapply strip_value_raises]
            end).
    done.
  - done.
  - intros [= <-]. by eapply any_stripped_raises.
Qed.

Lemma load_loop_raises lower raws index acc e :
  load_loop lower raws index acc = Raise e -> e = AttributeError.
Proof.
  revert index acc. induction raws as [|raw raws IH]; intros index acc; simpl; [done|].
  destruct (load_row lower index raw) as [o|e'] eqn:E; cbn [mbind result_bind].
  - apply IH.
  - intros [= <-]. by eapply load_row_raises.
Qed.

(** A load raises [ValueError] at two points and nowhere else: no header,
    or a header that lacks required names. *)
Lemma load_ValueError_iff (lower : str -> str) (records : list (list str)) (msg : str) :
  _load_csv lower records = Raise (ValueError msg)
  <-> (records = [] /\ msg = no_header_message)
      \/ (exists headers data, records = headers :: data
            /\ filter (fun field => field ∉ headers) EXPECTED_FIELDS <> []
            /\ msg = bad_header_message
                       (filter (fun field => field ∉ headers) EXPECTED_FIELDS)).
Proof.
  split.
  - destruct records as [|headers data].
    + intros [= <-]. by left.
    + unfold _load_csv. cbn [Csv.fieldnames head]. case_bool_decide as Hm.
      * intros [= <-]. right. by exists headers, data.
      * intros H. by apply load_loop_raises in H.
  - intros [[-> ->]|(headers & data & -> & Hm & ->)].
    + reflexivity.
    + by apply load_missing_fields.
Qed.

(** ** Loads of files without surplus fields *)

Lemma row_dict_named names row :
  (length row <= length names)%nat -> named (Csv.row_dict names row).
Proof.
  intros Hlen. destruct (row_dict_shape names row) as (d & Hd & [->|[Hlt _]]);
    [exact Hd|lia].
Qed.

Lemma get_named k d : named d -> forall l, Csv.get (Some k) d <> Csv.VList l.
Proof.
  induction 1 as [|[k' v'] d [_ Hv] Hd IH]; intros l; simpl; [done|].
  destruct (decide (Some k = k')); [apply Hv|apply IH].
Qed.

Lemma strip_value_returns v :
  (forall l, v <> Csv.VList l) -> exists s, strip_value (or_empty v) = Return s.
Proof.
  destruct v as [|s|l]; intros Hv.
  - by exists [].
  - exists (PyStr.strip s). apply strip_value_or_empty_str.
  - by destruct (Hv l).
Qed.

Lemma any_stripped_returns vs :
  Forall (fun v => forall l, v <> Csv.VList l) vs -> exists b, any_stripped vs = Return b.
Proof.
  induction 1 as [|v vs Hv Hvs [b IH]]; simpl; [by exists false|].
  destruct (strip_value_returns v Hv) as [s ->]. cbn [mbind result_bind].
  destruct (PyStr.truthy s); [by exists true|by exists b].
Qed.

(** On a dictionary without list values the loop body returns: nothing
    for a blank row, else a row that carries the index it was given. *)
Lemma load_row_returns lower index d :
  named d ->
  exists o, load_row lower index d = Return o
            /\ forall r, o = Some r -> row_number r = index.
Proof.
  intros Hd. unfold load_row.
  destruct (any_stripped_returns _ (named_values d Hd)) as [b ->].
  cbn [mbind result_bind]. destruct b; cbn [negb]; [|by exists None].
  unfold field.
  repeat (match goal with
          | |- context [strip_value (or_empty (Csv.get (Some ?k) d))] =>
              destruct (strip_value_returns _ (get_named k d Hd)) as [? ->];
              cbn [mbind result_bind]
          end).
  eexists. split; [reflexivity|]. by intros r [= <-].
Qed.

Lemma outcome_row_number lower index d r :
  outcome lower index d = Some r -> row_number r = index.
Proof.
  unfold outcome. destruct (load_row lower index d) as [o|e] eqn:E; [|done].
  intros ->. unfold load_row in E.
  destruct (any_stripped (Csv.values d)) as [[|]|e]; cbn [mbind result_bind negb] in E;
    [|done|done].
  repeat (match type of E with
          | context [field d ?k] =>
              destruct (field d k); cbn [mbind result_bind] in E; [|done]
          end).
  by injection E as <-.
Qed.

Lemma load_loop_named lower raws index acc :
  Forall named raws ->
  load_loop lower raws index acc
  = Return (acc ++ omap id (imap (fun i raw => outcome lower (index + Z.of_nat i) raw) raws)).
Proof.
  intros Hraws. revert index acc.
  induction Hraws as [|raw raws Hraw Hraws IH]; intros index acc.
  - simpl. by rewrite app_nil_r.
  - cbn [load_loop imap].
    destruct (load_row_returns lower index raw Hraw) as (o & Ho & _).
    rewrite Ho. cbn [mbind result_bind]. rewrite IH.
    unfold outcome at 2. rewrite Z.add_0_r, Ho.
    assert (imap (fun i raw0 => outcome lower (index + 1 + Z.of_nat i) raw0) raws
            = imap ((fun i raw0 => outcome lower (index + Z.of_nat i) raw0) ∘ S) raws) as ->.
    { apply imap_ext. intros i x _. simpl. f_equal. lia. }
    destruct o as [row|]; simpl.
    + by rewrite <- app_assoc.
    + done.
Qed.

(** A file whose header has the seven names and none of whose records is
    longer than the header always loads. *)
Lemma load_total (lower : str -> str) (headers : list str) (data : list (list str)) :
  filter (fun field => field ∉ headers) EXPECTED_FIELDS = [] ->
  Forall (fun row => (length row <= length headers)%nat) data ->
  exists rows, _load_csv lower (headers :: data) = Return rows.
Proof.
  intros Hm Hdata. unfold _load_csv. cbn [Csv.fieldnames head].
  rewrite Hm, bool_decide_eq_false_2 by (intros H; by apply H).
  eexists. apply load_loop_named. unfold Csv.rows.
  apply Forall_fmap, Forall_forall. intros row [_ Hin]%list_elem_of_filter.
  apply row_dict_named. by apply (proj1 (Forall_forall _ _) Hdata).
Qed.


(** A record of blank fields gives no row. *)
Lemma outcome_blank lower index d :
  Forall blank (Csv.values d) -> outcome lower index d = None.
Proof.
  intros Hb. unfold outcome, load_row.
  assert (any_stripped (Csv.values d) = Return false) as ->; [|done].
  induction Hb as [|v vs Hv Hvs IH]; [done|]. simpl.
  destruct Hv as [->|(s & -> & Hs)].
  - exact IH.
  - rewrite strip_value_or_empty_str, Hs. exact IH.
Qed.

(** * Further properties *)

(** ** Trimming *)

Lemma lstrip_spaces l s : Forall (fun c => PyStr.isspace c = true) l ->
  PyStr.lstrip (l ++ s) = PyStr.lstrip s.
Proof. induction 1 as [|c l Hc Hl IH]; simpl; [done|]. by rewrite Hc. Qed.

Lemma lstrip_nonspace a c b : PyStr.isspace c = false ->
  PyStr.lstrip (a ++ c :: b) = PyStr.lstrip a ++ c :: b.
Proof.
  intros Hc. induction a as [|x a IH]; simpl.
  - by rewrite Hc.
  - destruct (PyStr.isspace x); [exact IH|done].
Qed.

Lemma lstrip_all_spaces l : Forall (fun c => PyStr.isspace c = true) l ->
  PyStr.lstrip l = [].
Proof. intros H. rewrite <- (app_nil_r l). by rewrite lstrip_spaces. Qed.

Lemma lstrip_head s c : head (PyStr.lstrip s) = Some c -> PyStr.isspace c = false.
Proof.
  induction s as [|x s IH]; simpl; [done|].
  destruct (PyStr.isspace x) eqn:E; [exact IH|]. simpl. by intros [= <-].
Qed.

Lemma lstrip_idemp s : PyStr.lstrip (PyStr.lstrip s) = PyStr.lstrip s.
Proof.
  induction s as [|x s IH]; simpl; [done|].
  destruct (PyStr.isspace x) eqn:E; [exact IH|]. simpl. by rewrite E.
Qed.

Lemma rstrip_spaces s r : Forall (fun c => PyStr.isspace c = true) r ->
  PyStr.rstrip (s ++ r) = PyStr.rstrip s.
Proof.
  intros Hr. unfold PyStr.rstrip. rewrite reverse_app.
  rewrite lstrip_spaces; [done|]. by apply Forall_reverse.
Qed.

Lemma rstrip_cons_nonspace c t : PyStr.isspace c = false ->
  PyStr.rstrip (c :: t) = c :: PyStr.rstrip t.
Proof.
  intros Hc. unfold PyStr.rstrip. rewrite reverse_cons.
  rewrite lstrip_nonspace by done. by rewrite reverse_app.
Qed.

Lemma rstrip_idemp s : PyStr.rstrip (PyStr.rstrip s) = PyStr.rstrip s.
Proof. unfold PyStr.rstrip. by rewrite reverse_involutive, lstrip_idemp. Qed.

Lemma rstrip_last s c : last (PyStr.rstrip s) = Some c -> PyStr.isspace c = false.
Proof.
  unfold PyStr.rstrip. rewrite last_reverse. apply lstrip_head.
Qed.

Lemma strip_cases s :
  PyStr.strip s = []
  \/ exists c t, PyStr.isspace c = false /\ PyStr.lstrip s = c :: t
                 /\ PyStr.strip s = c :: PyStr.rstrip t.
Proof.
  unfold PyStr.strip. destruct (PyStr.lstrip s) as [|c t] eqn:E; [by left|].
  right. exists c, t. assert (PyStr.isspace c = false) as Hc.
  { apply (lstrip_head s). by rewrite E. }
  by rewrite rstrip_cons_nonspace.
Qed.

Lemma strip_trimmed s : trimmed (PyStr.strip s).
Proof.
  split.
  - destruct (strip_cases s) as [->|(c & t & Hc & _ & ->)]; [done|].
    simpl. by intros ? [= <-].
  - unfold PyStr.strip. apply rstrip_last.
Qed.

Lemma strip_idemp s : PyStr.strip (PyStr.strip s) = PyStr.strip s.
Proof.
  destruct (strip_cases s) as [->|(c & t & Hc & _ & ->)]; [done|].
  unfold PyStr.strip at 1. simpl. rewrite Hc.
  by rewrite rstrip_cons_nonspace, rstrip_idemp.
Qed.

Lemma strip_surrounded l v r :
  Forall (fun c => PyStr.isspace c = true) l ->
  Forall (fun c => PyStr.isspace c = true) r ->
  PyStr.strip (l ++ v ++ r) = PyStr.strip v.
Proof.
  intros Hl Hr. unfold PyStr.strip. rewrite lstrip_spaces by done.
  induction v as [|c v IH]; simpl.
  - by rewrite lstrip_all_spaces.
  - destruct (PyStr.isspace c) eqn:E; [exact IH|].
    by rewrite app_comm_cons, rstrip_spaces.
Qed.

(** ** Rows of a load *)

Lemma strip_value_strip v s :
  strip_value (or_empty v) = Return s -> exists x, s = PyStr.strip x.
Proof.
  destruct v as [|x|[|x l]].
  - intros [= <-]. by exists [].
  - rewrite strip_value_or_empty_str. intros [= <-]. by exists x.
  - intros [= <-]. by exists [].
  - done.
Qed.

Lemma field_trimmed raw name s : field raw name = Return s -> trimmed s.
Proof. intros (x & ->)%strip_value_strip. apply strip_trimmed. Qed.

Lemma map_busy_status_range lower v : (0 <= map_busy_status lower v <= 4)%Z.
Proof.
  rewrite map_busy_status_lookup.
  destruct (STATUS_MAP !! lower (PyStr.strip v)) as [c|] eqn:E; simpl; [|lia].
  by apply STATUS_MAP_range in E.
Qed.

Lemma load_row_loaded lower index raw r :
  load_row lower index raw = Return (Some r) ->
  loaded_row lower r /\ row_number r = index.
Proof.
  unfold load_row.
  destruct (any_stripped (Csv.values raw)) as [[|]|e]; cbn [mbind result_bind negb];
    [|done|done].
  repeat (match goal with
          | |- context [field raw ?k] =>
              let s := fresh "s" in
              let E := fresh "E" in
              destruct (field raw k) as [s|] eqn:E; cbn [mbind result_bind]; [|done];
              apply field_trimmed in E
          end).
  intros [= <-]. split; [|reflexivity]. unfold loaded_row.
  cbn [date start end_ subject status location body busy].
  repeat (split; [assumption|]). split; [reflexivity|apply map_busy_status_range].
Qed.

Lemma load_loop_rows lower raws index acc rows :
  load_loop lower raws index acc = Return rows ->
  exists new, rows = acc ++ new
    /\ Forall (loaded_row lower) new
    /\ row_number <$> new `sublist_of` seqZ index (Z.of_nat (length raws)).
Proof.
  revert index acc. induction raws as [|raw raws IH]; intros index acc; simpl.
  - intros [= <-]. exists []. rewrite app_nil_r. repeat split; [done|constructor].
  - destruct (load_row lower index raw) as [o|e] eqn:E; cbn [mbind result_bind]; [|done].
    intros (new & -> & Hnew & Hsub)%IH.
    rewrite seqZ_cons by lia.
    replace (Z.pred (Z.of_nat (S (length raws)))) with (Z.of_nat (length raws)) by lia.
    destruct o as [r|].
    + apply load_row_loaded in E as [Hr Hn].
      exists (r :: new). rewrite <- app_assoc. split; [done|]. split; [by constructor|].
      rewrite fmap_cons, Hn. by apply sublist_skip.
    + exists new. split; [done|]. split; [done|]. by apply sublist_cons.
Qed.

Lemma seqZ_StronglySorted m n : StronglySorted Z.lt (seqZ m n).
Proof.
  destruct (decide (n <= 0)%Z) as [Hn|Hn]; [rewrite seqZ_nil by done; constructor|].
  rewrite <- (Z2Nat.id n) by lia. generalize (Z.to_nat n) as k. clear Hn n.
  intros k. revert m. induction k as [|k IH]; intros m; [constructor|].
  rewrite seqZ_cons by lia.
  replace (Z.pred (Z.of_nat (S k))) with (Z.of_nat k) by lia.
  constructor; [apply IH|].
  apply Forall_forall. intros x Hx%elem_of_seqZ. lia.
Qed.

Lemma sublist_StronglySorted {A} (R : relation A) (l k : list A) :
  l `sublist_of` k -> StronglySorted R k -> StronglySorted R l.
Proof.
  induction 1 as [|x l k Hs IH|x l k Hs IH]; intros Hk; [done| |].
  - apply StronglySorted_inv in Hk as [Hk Hx]. constructor; [by apply IH|].
    apply Forall_forall. intros y Hy. apply (proj1 (Forall_forall _ _) Hx).
    by eapply sublist_subseteq.
  - apply StronglySorted_inv in Hk as [Hk _]. by apply IH.
Qed.

(** A load that returns is the loop over the dictionaries of the records
    after the header, which are fewer than the records. *)
Lemma _load_csv_loop lower records rows :
  _load_csv lower records = Return rows ->
  exists raws, load_loop lower raws 2 [] = Return rows
               /\ (length raws < length records)%nat.
Proof.
  destruct records as [|headers data]; [done|].
  unfold _load_csv. cbn [Csv.fieldnames head]. case_bool_decide; [done|].
  intros Hload. eexists. split; [exact Hload|].
  unfold Csv.rows. rewrite length_fmap. cbn [length].
  pose proof (length_filter (fun row : list str => row <> []) data). lia.
Qed.

Lemma _load_csv_rows lower records rows :
  _load_csv lower records = Return rows ->
  Forall (loaded_row lower) rows
  /\ row_number <$> rows `sublist_of` seqZ 2 (Z.of_nat (length records) - 1).
Proof.
  intros Hload. apply _load_csv_loop in Hload as (raws & Hloop & Hlen).
  apply load_loop_rows in Hloop as (new & -> & Hnew & Hsub). cbn [app].
  split; [exact Hnew|]. etrans; [exact Hsub|].
  replace (Z.of_nat (length records) - 1)%Z
    with (Z.of_nat (length raws) + Z.of_nat (length records - 1 - length raws))%Z by lia.
  rewrite seqZ_app by lia. by apply sublist_inserts_r.
Qed.

Lemma sublist_seqZ_lookup (l : list Z) (m n : Z) (i : nat) (x : Z) :
  l `sublist_of` seqZ m n -> l !! i = Some x -> (m + Z.of_nat i <= x)%Z.
Proof.
  destruct (decide (n <= 0)%Z) as [Hn|Hn].
  { rewrite seqZ_nil by done. intros ->%sublist_nil_r. done. }
  rewrite <- (Z2Nat.id n) by lia. generalize (Z.to_nat n) as k. clear Hn n.
  intros k. revert l m i. induction k as [|k IH]; intros l m i.
  { intros ->%sublist_nil_r. done. }
  rewrite seqZ_cons by lia.
  replace (Z.pred (Z.of_nat (S k))) with (Z.of_nat k) by lia.
  intros Hsub Hl. apply sublist_cons_r in Hsub as [Hsub|(l' & -> & Hsub)].
  - specialize (IH l (Z.succ m) i Hsub Hl). lia.
  - destruct i as [|i]; [injection Hl as <-; lia|].
    specialize (IH l' (Z.succ m) i Hsub Hl). lia.
Qed.

(** X1. Row numbers of a load. Whatever the file, when the load returns,
    the row numbers of its rows are taken in order from 2, 3, ..., one
    for each record after the header: they increase strictly, so no two
    rows share one, and lie between 2 and the number of records. *)
Theorem load_row_numbers (lower : str -> str) (records : list (list str))
    (rows : list ScheduleRow) :
  _load_csv lower records = Return rows ->
  row_number <$> rows `sublist_of` seqZ 2 (Z.of_nat (length records) - 1)
  /\ StronglySorted Z.lt (row_number <$> rows)
  /\ (length rows < length records)%nat
  /\ forall r, r ∈ rows -> (2 <= row_number r <= Z.of_nat (length records))%Z.
Proof.
  intros Hload. pose proof (_load_csv_rows _ _ _ Hload) as [_ Hsub].
  split; [exact Hsub|]. split; [|split].
  - eapply sublist_StronglySorted; [exact Hsub|apply seqZ_StronglySorted].
  - apply sublist_length in Hsub. rewrite length_fmap, length_seqZ in Hsub.
    destruct records; [done|]. cbn [length] in *. lia.
  - intros r Hr.
    assert (row_number r ∈ seqZ 2 (Z.of_nat (length records) - 1)) as Hin.
    { eapply sublist_subseteq; [exact Hsub|]. by apply list_elem_of_fmap_2. }
    apply elem_of_seqZ in Hin. lia.
Qed.

(** Two records, the first blank: one row, with number 3. *)
Lemma load_row_numbers_witness :
  StronglySorted Z.lt
    (row_number <$> [mk_ScheduleRow 3 (u"2024-05-02") (u"09:00") (u"10:00") (u"b") [] [] [] 2]).
Proof.
  apply (load_row_numbers PyStr.lower_ascii
           [ EXPECTED_FIELDS; [ u" "; []; [] ];
             [ u"2024-05-02"; u"09:00"; u"10:00"; u"b" ] ]).
  vm_compute. reflexivity.
Defined.

(** X2. Rows of a load are clean. Whatever the file, every row a load
    returns has no white space at either end of its seven strings, and
    its busy code is the code of its status, one of 0 to 4. *)
Theorem load_rows_clean (lower : str -> str) (records : list (list str))
    (rows : list ScheduleRow) :
  _load_csv lower records = Return rows -> Forall (loaded_row lower) rows.
Proof. intros Hload. by apply _load_csv_rows in Hload as [? _]. Qed.

(** A record with white space around its fields and a status in capitals. *)
Lemma load_rows_clean_witness :
  Forall (loaded_row PyStr.lower_ascii)
    [mk_ScheduleRow 2 (u"2024-05-02") (u"09:00") (u"10:00") (u"b") (u"OOO") [] [] 3].
Proof.
  apply (load_rows_clean PyStr.lower_ascii
           [ EXPECTED_FIELDS;
             [ u" 2024-05-02"; u"09:00 "; u"10:00"; u"　b　"; u" OOO "; u" "; [] ] ]).
  vm_compute. reflexivity.
Defined.

(** ** Records under a header of distinct names *)


Lemma dict_of_keys names row : (dict_of names row).*1 = Some <$> names.
Proof.
  revert row. induction names as [|n names IH]; intros [|f row]; simpl; by rewrite ?IH.
Qed.







Lemma missing_nil_iff (headers : list str) :
  filter (fun field => field ∉ headers) EXPECTED_FIELDS = [] <-> EXPECTED_FIELDS ⊆ headers.
Proof.
  generalize EXPECTED_FIELDS as l. induction l as [|x l IH].
  - split; [intros _ y Hy; by apply elem_of_nil in Hy|done].
  - destruct (decide (x ∈ headers)) as [Hx|Hx].
    + rewrite filter_cons_False by (intros H; by apply H). rewrite IH. split.
      * intros Hl y [->|Hy]%elem_of_cons; [done|by apply Hl].
      * intros Hl y Hy. apply Hl. by right.
    + rewrite filter_cons_True by done. split; [done|].
      intros Hl. destruct Hx. apply Hl. by left.
Qed.



(** ** Records longer than the header *)

Lemma load_row_restkey lower index d v s :
  named d -> Csv.VStr s ∈ Csv.values d -> PyStr.strip s <> [] ->
  load_row lower index (d ++ [(None, v)]) = load_row lower index d.
Proof.
  intros Hd Hin Hs. unfold load_row.
  assert (any_stripped (Csv.values (d ++ [(None, v)])) = Return true) as ->.
  { unfold Csv.values. rewrite map_app.
    eapply any_stripped_found; [by apply named_values|done|done]. }
  assert (any_stripped (Csv.values d) = Return true) as ->.
  { rewrite <- (app_nil_r (Csv.values d)).
    eapply any_stripped_found; [by apply named_values|done|done]. }
  unfold field. by rewrite !get_named_app.
Qed.

(** X5. Surplus fields. A record with more fields than the header has
    names, one of whose named fields is not blank, gives the same row as
    the record cut to the length of the header: the fields beyond the
    header are ignored. *)
Theorem surplus_fields_ignored (lower : str -> str) (names row : list str)
    (index : Z) (k s : str) :
  (length names < length row)%nat ->
  Csv.get (Some k) (Csv.row_dict names (take (length names) row)) = Csv.VStr s ->
  PyStr.strip s <> [] ->
  load_row lower index (Csv.row_dict names row)
  = load_row lower index (Csv.row_dict names (take (length names) row)).
Proof.
  intros Hlen Hget Hs.
  assert (Csv.row_dict names row
          = Csv.row_dict names (take (length names) row)
            ++ [(None, Csv.VList (drop (length names) row))]
          /\ named (Csv.row_dict names (take (length names) row))) as [-> Hd].
  { unfold Csv.row_dict. rewrite length_take, Nat.min_l by lia.
    rewrite (proj2 (Nat.ltb_lt _ _) Hlen), Nat.ltb_irrefl.
    rewrite (zip_with_take_r pair names row).
    pose proof (named_zip names row [] (Forall_nil_2 _)) as Hz.
    split; [by apply set_restkey|exact Hz]. }
  eapply load_row_restkey; [exact Hd| |exact Hs].
  by eapply get_VStr_values.
Qed.

(** A record of nine fields under the seven names. *)
Lemma surplus_fields_ignored_witness :
  load_row PyStr.lower_ascii 2
    (Csv.row_dict EXPECTED_FIELDS
       [ u"2024-05-01"; u"09:00"; u"10:00"; u"a"; u"busy"; []; []; u"x"; u"y" ])
  = Return (Some (mk_ScheduleRow 2 (u"2024-05-01") (u"09:00") (u"10:00") (u"a") (u"busy")
                    [] [] 2)).
Proof.
  rewrite (surplus_fields_ignored PyStr.lower_ascii EXPECTED_FIELDS _ 2 (u"Subject") (u"a")).
  - vm_compute. reflexivity.
  - unfold EXPECTED_FIELDS. cbn [length]. lia.
  - vm_compute. reflexivity.
  - vm_compute. discriminate.
Defined.

(** ** The mapper and white space *)

(** X6. White space around a status. White space before and after a
    status does not change its busy code, and a status made of white
    space only has code 2 (given that lowering the empty string gives
    the empty string). *)
Theorem map_busy_status_surrounding_space (lower : str -> str) (l v r : str) :
  Forall (fun c => PyStr.isspace c = true) l ->
  Forall (fun c => PyStr.isspace c = true) r ->
  map_busy_status lower (l ++ v ++ r) = map_busy_status lower v
  /\ (lower [] = [] -> map_busy_status lower (l ++ r) = 2%Z).
Proof.
  intros Hl Hr. split.
  - unfold map_busy_status. by rewrite strip_surrounded.
  - intros Hlower. unfold map_busy_status.
    pose proof (strip_surrounded l [] r Hl Hr) as H. cbn [app] in H.
    by rewrite H, strip_nil, Hlower.
Qed.

(** A tab and a space before, an ideographic space after. *)
Lemma map_busy_status_surrounding_space_witness :
  map_busy_status PyStr.lower_ascii ([0x09; 0x20] ++ u"Tentative" ++ [0x3000])
  = map_busy_status PyStr.lower_ascii (u"Tentative")
  /\ map_busy_status PyStr.lower_ascii ([0x09; 0x20] ++ [0x3000]) = 2%Z.
Proof.
  destruct (map_busy_status_surrounding_space PyStr.lower_ascii
              [0x09; 0x20] (u"Tentative") [0x3000]) as [H1 H2].
  - repeat constructor.
  - repeat constructor.
  - split; [exact H1|]. apply H2. reflexivity.
Defined.

(** ** Values the pattern reads *)

Lemma decimal_range c d : PyTime.decimal c = Some d -> (0 <= d <= 9)%Z.
Proof.
  unfold PyTime.decimal.
  destruct (List.find _ PyTime.decimal_blocks) as [b|] eqn:E; [|done].
  apply List.find_some in E as [_ [H1 H2]%andb_prop].
  apply N.leb_le in H1. apply N.ltb_lt in H2. intros [= <-]. lia.
Qed.

Lemma yields_digit : yields (fun d => 0 <= d <= 9)%Z PyTime.digit.
Proof.
  intros [|c s] a r; simpl; [by intros ?%elem_of_nil|].
  destruct (PyTime.decimal c) eqn:E; [|by intros ?%elem_of_nil].
  intros [= -> _]%list_elem_of_singleton. by eapply decimal_range.
Qed.

Lemma yields_range lo hi :
  (0x30 <= lo)%N ->
  yields (fun d => Z.of_N lo - 48 <= d <= Z.of_N hi - 48)%Z (PyTime.range lo hi).
Proof.
  intros Hlo [|c s] a r; simpl; [by intros ?%elem_of_nil|].
  destruct (lo <=? c)%N eqn:E1; [|by intros ?%elem_of_nil].
  destruct (c <=? hi)%N eqn:E2; [|by intros ?%elem_of_nil]. simpl.
  apply N.leb_le in E1, E2.
  intros [= -> _]%list_elem_of_singleton. lia.
Qed.

Lemma yields_two (P Q : Z -> Prop) hi lo :
  yields P hi -> yields Q lo ->
  yields (fun d => exists a b, P a /\ Q b /\ d = 10 * a + b)%Z (PyTime.two hi lo).
Proof.
  intros Hh Hl s d r. unfold PyTime.two.
  intros ([a r1] & ([b r2] & [= -> _]%list_elem_of_singleton & Hb)%list_elem_of_bind
          & Ha)%list_elem_of_bind.
  exists a, b. split; [by eapply Hh|]. split; [by eapply Hl|done].
Qed.

Lemma yields_alt {A} (P : A -> Prop) (m1 m2 : PyTime.matcher A) :
  yields P m1 -> yields P m2 -> yields P (fun s => m1 s ++ m2 s).
Proof. intros H1 H2 s a r [H|H]%elem_of_app; eauto. Qed.

Lemma yields_impl {A} (P Q : A -> Prop) (m : PyTime.matcher A) :
  (forall a, P a -> Q a) -> yields P m -> yields Q m.
Proof. intros HPQ Hm s a r H. eapply HPQ, Hm, H. Qed.

Ltac two_digits :=
  eapply yields_impl;
  [|apply yields_two; [apply yields_range; lia|first [apply yields_range; lia|apply yields_digit]]];
  cbn beta; intros ? (? & ? & ? & ? & ->); lia.

Ltac one_digit :=
  eapply yields_impl; [|first [apply yields_range; lia|apply yields_digit]];
  cbn beta; intros ? ?; lia.

Lemma yields_re_Y : yields (fun y => 0 <= y <= 9999)%Z PyTime.re_Y.
Proof.
  intros s y r. unfold PyTime.re_Y.
  intros ([a r1] & H & Ha)%list_elem_of_bind.
  apply list_elem_of_bind in H as ([b r2] & H & Hb).
  apply list_elem_of_bind in H as ([c r3] & H & Hc).
  apply list_elem_of_bind in H as ([d r4] & H & Hd).
  apply list_elem_of_singleton in H as [= -> _].
  apply yields_digit in Ha, Hb, Hc, Hd. lia.
Qed.

Lemma yields_re_m : yields (fun m => 1 <= m <= 12)%Z PyTime.re_m.
Proof.
  unfold PyTime.re_m. repeat apply yields_alt; [two_digits|two_digits|one_digit].
Qed.

Lemma yields_re_d : yields (fun d => 1 <= d <= 31)%Z PyTime.re_d.
Proof.
  unfold PyTime.re_d.
  repeat apply yields_alt; [two_digits|two_digits|two_digits|one_digit|].
  intros s d r ([[] r1] & H & _)%list_elem_of_bind. revert H.
  assert (yields (fun d => 1 <= d <= 31)%Z (PyTime.range 49 57)) as Hr by one_digit.
  apply Hr.
Qed.

Lemma yields_re_H : yields (fun h => 0 <= h <= 23)%Z PyTime.re_H.
Proof.
  unfold PyTime.re_H. repeat apply yields_alt; [two_digits|two_digits|one_digit].
Qed.

Lemma yields_re_M : yields (fun m => 0 <= m <= 59)%Z PyTime.re_M.
Proof.
  unfold PyTime.re_M. repeat apply yields_alt; [two_digits|one_digit].
Qed.

Lemma yields_re_format :
  yields (fun dt => 0 <= year dt <= 9999 /\ 1 <= month dt <= 12 /\ 1 <= day dt <= 31
                    /\ 0 <= hour dt <= 23 /\ 0 <= minute dt <= 59)%Z
    PyTime.re_format.
Proof.
  intros s dt r. unfold PyTime.re_format.
  intros ([Y r1] & H & HY)%list_elem_of_bind.
  apply list_elem_of_bind in H as ([? r2] & H & _).
  apply list_elem_of_bind in H as ([m r3] & H & Hm).
  apply list_elem_of_bind in H as ([? r4] & H & _).
  apply list_elem_of_bind in H as ([d r5] & H & Hd).
  apply list_elem_of_bind in H as ([? r6] & H & _).
  apply list_elem_of_bind in H as ([h r7] & H & Hh).
  apply list_elem_of_bind in H as ([? r8] & H & _).
  apply list_elem_of_bind in H as ([M r9] & H & HM).
  apply list_elem_of_singleton in H as [= -> _]. cbn.
  apply yields_re_Y in HY. apply yields_re_m in Hm. apply yields_re_d in Hd.
  apply yields_re_H in Hh. apply yields_re_M in HM. lia.
Qed.

(** What [strptime] returns is a date-time that exists. *)
Lemma strptime_well_formed s dt : PyTime.strptime s = Some dt -> well_formed dt.
Proof.
  unfold PyTime.strptime.
  destruct (PyTime.re_format s) as [|[dt' [|? ?]] l] eqn:E; try done.
  destruct (_ && _) eqn:Hv; [|done]. intros [= <-].
  assert ((dt', []) ∈ PyTime.re_format s) as Hin by (rewrite E; by left).
  apply yields_re_format in Hin. apply andb_prop in Hv as [H1 H2].
  apply Z.leb_le in H1, H2. unfold well_formed. lia.
Qed.

(** ** Validation, in full *)

Lemma _parse_datetimes_accepts row s e :
  _parse_datetimes row = (Some s, Some e, None) ->
  date row <> [] /\ start row <> [] /\ end_ row <> []
  /\ PyTime.strptime (date row ++ u" " ++ start row) = Some s
  /\ PyTime.strptime (date row ++ u" " ++ end_ row) = Some e
  /\ PyTime.compare_dt s e = Lt.
Proof.
  unfold _parse_datetimes.
  destruct (date row) as [|c1 d]; [done|].
  destruct (start row) as [|c2 st]; [done|].
  destruct (end_ row) as [|c3 en]; [done|]. cbn [PyStr.truthy negb orb].
  destruct (PyTime.strptime _) as [s'|]; [|done].
  destruct (PyTime.strptime _) as [e'|]; [|done].
  destruct (PyTime.le_dt e' s') eqn:L; [done|].
  intros [= <- <-]. apply le_dt_false in L. done.
Qed.

(** X7. Validation, both ways. A row passes validation with two
    date-times exactly when its date, start and end are not empty, date
    and start, and date and end, read as these date-times, and the start
    is before the end; the date-times it passes with exist (month 1 to
    12, a day of that month, hour below 24, minute below 60). *)
Theorem parse_datetimes_accepts_iff (row : ScheduleRow) (s e : datetime) :
  (_parse_datetimes row = (Some s, Some e, None)
   <-> date row <> [] /\ start row <> [] /\ end_ row <> []
       /\ PyTime.strptime (date row ++ u" " ++ start row) = Some s
       /\ PyTime.strptime (date row ++ u" " ++ end_ row) = Some e
       /\ PyTime.compare_dt s e = Lt)
  /\ (_parse_datetimes row = (Some s, Some e, None) -> well_formed s /\ well_formed e).
Proof.
  split; [split|].
  - apply _parse_datetimes_accepts.
  - intros (Hd & Hs & He & Ps & Pe & Hlt). unfold _parse_datetimes.
    apply truthy_true in Hd, Hs, He. rewrite Hd, Hs, He, Ps, Pe. cbn [negb orb].
    apply le_dt_false in Hlt. by rewrite Hlt.
  - intros H. apply _parse_datetimes_accepts in H as (_ & _ & _ & Ps & Pe & _).
    split; by eapply strptime_well_formed.
Qed.

(** A row over midnight of a leap day, written with single digits. *)
Lemma parse_datetimes_accepts_iff_witness :
  let row := mk_ScheduleRow 2 (u"2024-2-29") (u"9:05") (u"23:59") [] [] [] [] 2 in
  date row <> []
  /\ well_formed (mk_datetime 2024 2 29 9 5) /\ well_formed (mk_datetime 2024 2 29 23 59).
Proof.
  intros row.
  destruct (parse_datetimes_accepts_iff row (mk_datetime 2024 2 29 9 5)
              (mk_datetime 2024 2 29 23 59)) as [Hiff Hwf].
  assert (_parse_datetimes row
          = (Some (mk_datetime 2024 2 29 9 5), Some (mk_datetime 2024 2 29 23 59), None))
    as Hp by (vm_compute; reflexivity).
  split; [exact (proj1 (proj1 Hiff Hp))|exact (Hwf Hp)].
Defined.

(** X8. Start or end that cannot be read. A row fails validation with
    the reason that Start/End is invalid exactly when it has a date and
    its start or its end, put after the date, does not read as a
    date-time; an empty start or end is such a case. *)
Theorem parse_datetimes_start_end_invalid (row : ScheduleRow) :
  (_parse_datetimes row = (None, None, Some reason_start_end)
   <-> date row <> []
       /\ (PyTime.strptime (date row ++ u" " ++ start row) = None
           \/ PyTime.strptime (date row ++ u" " ++ end_ row) = None))
  /\ (start row = [] -> PyTime.strptime (date row ++ u" " ++ start row) = None)
  /\ (end_ row = [] -> PyTime.strptime (date row ++ u" " ++ end_ row) = None).
Proof.
  split; [|split; intros ->; by rewrite app_nil_r, strptime_trailing_space].
  unfold _parse_datetimes.
  destruct (date row) as [|c1 d] eqn:Ed; cbn [PyStr.truthy negb].
  { split; [intros H; vm_compute in H; discriminate H|by intros [? _]]. }
  destruct (start row) as [|c2 st] eqn:Es; cbn [PyStr.truthy negb orb].
  { split; [intros _|done]. split; [done|]. left.
    by rewrite app_nil_r, strptime_trailing_space. }
  destruct (end_ row) as [|c3 en] eqn:Ee; cbn [PyStr.truthy negb orb].
  { split; [intros _|done]. split; [done|]. right.
    by rewrite app_nil_r, strptime_trailing_space. }
  destruct (PyTime.strptime ((c1 :: d) ++ u" " ++ c2 :: st)) as [s'|];
    destruct (PyTime.strptime ((c1 :: d) ++ u" " ++ c3 :: en)) as [e'|].
  - destruct (PyTime.le_dt e' s');
      (split; [intros H; vm_compute in H; discriminate H|by intros [_ [?|?]]]).
  - split; [intros _; split; [done|by right]|done].
  - split; [intros _; split; [done|by left]|done].
  - split; [intros _; split; [done|by left]|done].
Qed.

(** An hour of 24, and an empty end. *)
Lemma parse_datetimes_start_end_invalid_witness :
  _parse_datetimes (mk_ScheduleRow 2 (u"2024-05-01") (u"24:00") (u"25:00") [] [] [] [] 2)
  = (None, None, Some reason_start_end)
  /\ PyTime.strptime (u"2024-05-01" ++ u" " ++ []) = None.
Proof.
  split.
  - apply (proj1 (parse_datetimes_start_end_invalid _)). split.
    + vm_compute. discriminate.
    + left. vm_compute. reflexivity.
  - apply (proj2 (proj2 (parse_datetimes_start_end_invalid
                           (mk_ScheduleRow 2 (u"2024-05-01") (u"24:00") [] [] [] [] [] 2)))).
    reflexivity.
Defined.

(** ** Runs in general *)

Lemma valid_appointment_cases (row : ScheduleRow) :
  (exists s e, _parse_datetimes row = (Some s, Some e, None)
               /\ valid_appointment row = Some (appointment_of row s e))
  \/ (exists reason, _parse_datetimes row = (None, None, Some reason)
                     /\ valid_appointment row = None).
Proof.
  unfold valid_appointment.
  destruct (_parse_datetimes_cases row) as [(s & e & ->)|(reason & -> & _)].
  - left. by exists s, e.
  - right. by exists reason.
Qed.

Section Runs.

Context {Host : Type} (create : Host -> Appointment -> Host * option str).

Lemma register_row_step (row : ScheduleRow) (st : Run Host) :
  exists line,
    row_line row line
    /\ log_text (run_app (register_row create row st)) = log_text (run_app st) ++ [line]
    /\ run_calls (register_row create row st)
       = run_calls st ++ from_option (fun a => [a]) [] (valid_appointment row)
    /\ csv_path (run_app (register_row create row st)) = csv_path (run_app st)
    /\ path_var (run_app (register_row create row st)) = path_var (run_app st)
    /\ tree (run_app (register_row create row st)) = tree (run_app st)
    /\ register_button (run_app (register_row create row st)) = register_button (run_app st)
    /\ dialogs (run_app (register_row create row st)) = dialogs (run_app st).
Proof.
  unfold register_row, valid_appointment, row_line.
  destruct (_parse_datetimes_cases row) as [(s & e & Hp)|(reason & Hp & Hr)].
  - unfold valid_appointment. rewrite Hp.
    destruct (create (run_host st) (appointment_of row s e)) as [h [exc|]].
    + exists (host_ng_line row exc). split; [left; split; [by eexists|right; by exists exc]|].
      done.
    + exists (ok_line row). split; [left; split; [by eexists|by left]|]. done.
  - unfold valid_appointment. rewrite Hp.
    exists (ng_line row reason). split; [right; split; [done|by exists reason]|].
    cbn [from_option]. by rewrite app_nil_r.
Qed.

Lemma register_loop_steps (rows : list ScheduleRow) (st : Run Host) :
  exists lines,
    Forall2 row_line rows lines
    /\ log_text (run_app (register_loop create rows st)) = log_text (run_app st) ++ lines
    /\ run_calls (register_loop create rows st) = run_calls st ++ omap valid_appointment rows
    /\ csv_path (run_app (register_loop create rows st)) = csv_path (run_app st)
    /\ path_var (run_app (register_loop create rows st)) = path_var (run_app st)
    /\ tree (run_app (register_loop create rows st)) = tree (run_app st)
    /\ register_button (run_app (register_loop create rows st))
       = register_button (run_app st)
    /\ dialogs (run_app (register_loop create rows st)) = dialogs (run_app st).
Proof.
  revert st. induction rows as [|row rows IH]; intros st.
  - exists []. unfold register_loop. cbn [foldl omap]. rewrite !app_nil_r.
    split; [constructor|done].
  - unfold register_loop. cbn [foldl]. fold (register_loop create rows (register_row create row st)).
    destruct (register_row_step row st) as (line & Hline & Hlog & Hcalls & H1 & H2 & H3 & H4 & H5).
    destruct (IH (register_row create row st))
      as (lines & Hlines & Hlog' & Hcalls' & H1' & H2' & H3' & H4' & H5').
    exists (line :: lines). split; [by constructor|].
    rewrite Hlog', Hlog, Hcalls', Hcalls, H1', H1, H2', H2, H3', H3, H4', H4, H5', H5.
    rewrite <- !app_assoc. repeat split.
    change (omap valid_appointment (row :: rows))
      with (match valid_appointment row with
            | Some a => a :: omap valid_appointment rows
            | None => omap valid_appointment rows
            end).
    by destruct (valid_appointment row).
Qed.

End Runs.

Lemma run_log_steps {Host : Type}
    (create : Host -> Appointment -> Host * option str) (outlook : Host) (app : App) :
  exists lines,
    Forall2 row_line (rows app) lines
    /\ log_text (_register_appointments create (Connected outlook) app).1
       = log_text app ++ lines ++ [end_line]
    /\ register_button (_register_appointments create (Connected outlook) app).1 = true.
Proof.
  unfold _register_appointments. cbn [fst].
  destruct (register_loop_steps create (rows app) (mk_Run app outlook []))
    as (lines & Hlines & Hlog & _).
  exists lines. split; [exact Hlines|].
  rewrite (proj1 (finish_log _)), Hlog. split; [by rewrite <- app_assoc|].
  apply finish_log.
Qed.

(** X9. What is handed to Outlook does not depend on Outlook. In a run,
    the appointments handed to Outlook are those of the rows that pass
    validation, in the order of the rows, whatever Outlook answers: a
    refusal stops nothing, and no row is handed over twice. *)
Theorem run_calls_valid_rows (Host : Type)
    (create : Host -> Appointment -> Host * option str) (outlook : Host) (app : App) :
  (_register_appointments create (Connected outlook) app).2
  = omap valid_appointment (rows app).
Proof.
  unfold _register_appointments. cbn [snd].
  destruct (register_loop_steps create (rows app) (mk_Run app outlook []))
    as (lines & _ & _ & -> & _). done.
Qed.

(** X10. One line for each row. A run with Outlook there adds to the
    log one line for each row, in the order of the rows, and then the
    closing line: for a row that passes validation the success line of
    the row or a failure line with Outlook's text, for any other row the
    failure line with one of the three reasons. *)
Theorem run_log_lines (Host : Type)
    (create : Host -> Appointment -> Host * option str) (outlook : Host) (app : App) :
  exists lines,
    Forall2 row_line (rows app) lines
    /\ log_text (_register_appointments create (Connected outlook) app).1
       = log_text app ++ lines ++ [end_line].
Proof.
  destruct (run_log_steps create outlook app) as (lines & Hlines & Hlog & _).
  by exists lines.
Qed.

(** ** What reaches Outlook *)

Lemma omap_length {A B} (f : A -> option B) (l : list A) :
  (length (omap f l) <= length l)%nat.
Proof.
  induction l as [|x l IH]; [done|].
  change (omap f (x :: l))
    with (match f x with Some y => y :: omap f l | None => omap f l end).
  destruct (f x); cbn [length]; lia.
Qed.

Lemma valid_appointment_inv row a :
  valid_appointment row = Some a ->
  exists s e, _parse_datetimes row = (Some s, Some e, None) /\ a = appointment_of row s e.
Proof.
  destruct (valid_appointment_cases row) as [(s & e & Hp & ->)|(reason & _ & ->)]; [|done].
  intros [= <-]. by exists s, e.
Qed.

(** X11. The appointment of a row. The appointment handed to Outlook for
    a row has the subject and busy code of the row, a start and an end
    that exist, the start before the end; its location and its body are
    those of the row when the row has them, and are not assigned when
    they are empty. *)
Theorem valid_appointment_fields (row : ScheduleRow) (a : Appointment) :
  valid_appointment row = Some a ->
  Subject a = subject row /\ BusyStatus a = busy row
  /\ well_formed (Start a) /\ well_formed (End a)
  /\ PyTime.compare_dt (Start a) (End a) = Lt
  /\ Location a = (if decide (location row = []) then None else Some (location row))
  /\ Body a = (if decide (body row = []) then None else Some (body row)).
Proof.
  intros (s & e & Hp & ->)%valid_appointment_inv.
  apply _parse_datetimes_accepts in Hp as (_ & _ & _ & Ps & Pe & Hlt).
  apply strptime_well_formed in Ps, Pe.
  unfold appointment_of. cbn [Subject BusyStatus Start End Location Body].
  repeat (split; [done|]).
  split; [by destruct (location row)|by destruct (body row)].
Qed.

(** A row with a place and no note. *)
Lemma valid_appointment_fields_witness :
  let row := mk_ScheduleRow 2 (u"2024-05-01") (u"09:00") (u"10:00") (u"a") (u"free")
               (u"Room 1") [] 0 in
  let a := mk_Appointment (u"a") (mk_datetime 2024 5 1 9 0) (mk_datetime 2024 5 1 10 0) 0
             (Some (u"Room 1")) None in
  Location a = Some (u"Room 1") /\ Body a = None.
Proof.
  intros row a.
  destruct (valid_appointment_fields row a) as (_ & _ & _ & _ & _ & HL & HB).
  - vm_compute. reflexivity.
  - split; [exact HL|exact HB].
Defined.

(** X12. From the file to Outlook. When the rows of the application are
    those of a load, every appointment a run hands to Outlook has a busy
    code from 0 to 4, a subject without white space at its ends, and a
    start and an end that exist, the start before the end; and there are
    fewer appointments than the file has records. *)
Theorem loaded_rows_submitted (lower : str -> str) (records : list (list str))
    (Host : Type) (create : Host -> Appointment -> Host * option str)
    (outlook : Host) (app : App) :
  _load_csv lower records = Return (rows app) ->
  let calls := (_register_appointments create (Connected outlook) app).2 in
  Forall (fun a => (0 <= BusyStatus a <= 4)%Z /\ trimmed (Subject a)
                   /\ well_formed (Start a) /\ well_formed (End a)
                   /\ PyTime.compare_dt (Start a) (End a) = Lt) calls
  /\ (length calls < length records)%nat.
Proof.
  intros Hload calls. subst calls.
  unfold _register_appointments. cbn [snd].
  destruct (register_loop_steps create (rows app) (mk_Run app outlook []))
    as (lines & _ & _ & -> & _). cbn [run_calls]. rewrite app_nil_l.
  pose proof (_load_csv_rows _ _ _ Hload) as [Hclean Hsub].
  split.
  - apply Forall_forall. intros a (row & Hrow & Ha)%list_elem_of_omap.
    apply (proj1 (Forall_forall _ _) Hclean) in Hrow
      as (_ & _ & _ & Hsubj & _ & _ & _ & _ & Hbusy).
    apply valid_appointment_inv in Ha as (s & e & Hp & ->).
    apply _parse_datetimes_accepts in Hp as (_ & _ & _ & Ps & Pe & Hlt).
    apply strptime_well_formed in Ps, Pe. done.
  - apply sublist_length in Hsub. rewrite length_fmap, length_seqZ in Hsub.
    pose proof (omap_length valid_appointment (rows app)).
    destruct records; [done|]. cbn [length] in *. lia.
Qed.

(** A file of two records, the second with its end before its start. *)
Lemma loaded_rows_submitted_witness :
  let r1 := mk_ScheduleRow 2 (u"2024-05-01") (u"09:00") (u"10:00") (u"a") (u"仮") [] [] 1 in
  let r2 := mk_ScheduleRow 3 (u"2024-05-01") (u"11:00") (u"10:00") (u"b") [] [] [] 2 in
  let app := mk_App None [] [r1; r2] [] [] true [] in
  (length (_register_appointments (counting_create 7) (Connected 0%nat) app).2 < 3)%nat.
Proof.
  intros r1 r2 app.
  apply (loaded_rows_submitted PyStr.lower_ascii
           [ EXPECTED_FIELDS;
             [ u"2024-05-01"; u"09:00"; u"10:00"; u"a"; u" 仮" ];
             [ u"2024-05-01"; u"11:00"; u"10:00"; u"b" ] ]).
  vm_compute. reflexivity.
Defined.

(** ** The application over time *)

Lemma _register_appointments_state {Host : Type}
    (create : Host -> Appointment -> Host * option str) (d : dispatched Host) (app : App) :
  let after := (_register_appointments create d app).1 in
  csv_path after = csv_path app /\ path_var after = path_var app
  /\ rows after = rows app /\ tree after = tree app
  /\ register_button after = true
  /\ log_text app `prefix_of` log_text after
  /\ dialogs after = dialogs app.
Proof.
  destruct d as [outlook|exc]; unfold _register_appointments; cbn [fst].
  - destruct (register_loop_steps create (rows app) (mk_Run app outlook []))
      as (lines & _ & Hlog & _ & H1 & H2 & H3 & _ & H5).
    pose proof (register_loop_rows create (rows app) (mk_Run app outlook [])) as H4.
    unfold finish, _append_log, set_button.
    cbn [csv_path path_var rows tree register_button log_text dialogs run_app] in *.
    rewrite H1, H2, H3, H4, H5, Hlog. repeat split; try done.
    rewrite <- app_assoc. by apply prefix_app_r.
  - unfold finish, _append_log, set_button.
    cbn [csv_path path_var rows tree register_button log_text dialogs].
    repeat split; try done. rewrite <- app_assoc. by apply prefix_app_r.
Qed.

Lemma on_register_state {Host : Type}
    (create : Host -> Appointment -> Host * option str) (modules : bool)
    (d : dispatched Host) (app : App) :
  let after := (on_register create modules d app).1 in
  csv_path after = csv_path app /\ path_var after = path_var app
  /\ rows after = rows app /\ tree after = tree app
  /\ (register_button after = register_button app \/ register_button after = true)
  /\ log_text app `prefix_of` log_text after
  /\ dialogs app `prefix_of` dialogs after.
Proof.
  unfold on_register. case_bool_decide.
  { cbn. repeat split; try done; [by left|by apply prefix_app_r]. }
  destruct modules; cbn [negb].
  - destruct (_register_appointments_state create d
                (_append_log (u"予定登録を開始") (set_button false app)))
      as (H1 & H2 & H3 & H4 & H5 & H6 & H7).
    cbn zeta in *. rewrite H1, H2, H3, H4, H5, H7.
    unfold _append_log, set_button in *.
    cbn [csv_path path_var rows tree register_button log_text dialogs] in *.
    repeat split; try done; [by right|].
    etrans; [|exact H6]. by apply prefix_app_r.
  - cbn. repeat split; try done; [by left|by apply prefix_app_r].
Qed.

Lemma select_csv_state (lower path_str : str -> str) (file_path : str)
    (records : list (list str)) (app : App) :
  let after := (select_csv lower path_str file_path records app).1 in
  register_button after = register_button app
  /\ log_text app `prefix_of` log_text after
  /\ dialogs app `prefix_of` dialogs after
  /\ ((csv_path after = csv_path app /\ path_var after = path_var app
       /\ rows after = rows app /\ tree after = tree app)
      \/ (_load_csv lower records = Return (rows after)
          /\ csv_path after = Some (path_str file_path)
          /\ path_var after = path_str file_path
          /\ tree after = table (rows after))).
Proof.
  unfold select_csv. destruct (negb (PyStr.truthy file_path)).
  { cbn. repeat split; try done. by left. }
  destruct (_load_csv lower records) as [new|[msg|]] eqn:E.
  - unfold _append_log, _refresh_tree, table.
    cbn [fst csv_path path_var rows tree register_button log_text dialogs].
    repeat split; try done; [by apply prefix_app_r|]. by right.
  - cbn. repeat split; try done; [by apply prefix_app_r|by left].
  - cbn. repeat split; try done. by left.
Qed.

Section Sessions.

Context {Host : Type}.
Variable lower : str -> str.
Variable path_str : str -> str.
Variable create : Host -> Appointment -> Host * option str.

Lemma perform_consistent (a : action) (app : App) :
  consistent lower app -> consistent lower (perform lower path_str create a app).
Proof.
  intros (Htree & Hpath & Hnone & Hbutton & Hclean & Hsorted).
  destruct a as [file_path records|modules d]; cbn [perform].
  - destruct (select_csv_state lower path_str file_path records app)
      as (Hb & _ & _ & [(H1 & H2 & H3 & H4)|(Hload & H1 & H2 & H4)]); cbn zeta in *.
    + unfold consistent. by rewrite H1, H2, H3, H4, Hb.
    + pose proof (_load_csv_rows _ _ _ Hload) as [Hc Hsub].
      unfold consistent. rewrite H1, H2, H4, Hb. repeat split; try done.
      eapply sublist_StronglySorted; [exact Hsub|apply seqZ_StronglySorted].
  - destruct (on_register_state create modules d app)
      as (H1 & H2 & H3 & H4 & Hb & _ & _); cbn zeta in *.
    unfold consistent. rewrite H1, H2, H3, H4. repeat split; try done.
    destruct Hb as [->| ->]; done.
Qed.

Lemma session_snoc (actions : list action) (a : action) :
  session lower path_str create (actions ++ [a])
  = perform lower path_str create a (session lower path_str create actions).
Proof. unfold session. by rewrite foldl_app. Qed.

End Sessions.

(** X13. The application stays consistent. From its start and after
    any sequence of file choices and register presses, whatever the
    files hold and whatever Outlook does: the table shows the rows, row
    by row; the path shown is the path kept; there are rows only after
    a file was chosen; the register button is enabled again; every row
    is as a load leaves it, and the row numbers increase. *)
Theorem session_consistent (Host : Type) (lower path_str : str -> str)
    (create : Host -> Appointment -> Host * option str) (actions : list (@action Host)) :
  consistent lower (session lower path_str create actions).
Proof.
  induction actions as [|a actions IH] using rev_ind.
  - unfold session, SchedulerApp_init, consistent. cbn.
    repeat split; try done; constructor.
  - rewrite session_snoc. by apply perform_consistent.
Qed.

(** X14. The log only grows. Whatever is done next, the lines the log
    holds stay in it, in place, and so do the message boxes shown: later
    actions add at the end. *)
Theorem session_log_grows (Host : Type) (lower path_str : str -> str)
    (create : Host -> Appointment -> Host * option str)
    (actions more : list (@action Host)) :
  log_text (session lower path_str create actions)
    `prefix_of` log_text (session lower path_str create (actions ++ more))
  /\ dialogs (session lower path_str create actions)
    `prefix_of` dialogs (session lower path_str create (actions ++ more)).
Proof.
  induction more as [|a more [IH1 IH2]] using rev_ind.
  - by rewrite app_nil_r.
  - rewrite app_assoc, session_snoc.
    set (app := session lower path_str create (actions ++ more)) in *.
    destruct a as [file_path records|modules d]; cbn [perform].
    + destruct (select_csv_state lower path_str file_path records app)
        as (_ & Hl & Hd & _).
      split; etrans; done.
    + destruct (on_register_state create modules d app)
        as (_ & _ & _ & _ & _ & Hl & Hd).
      split; etrans; done.
Qed.

(** X15. The numbers in the table. After a file was loaded the table has
    one line for each row, in order, numbered from 1, with the fields of
    the row; the number of a line is its place in the table and is
    always below the row number, which the log uses. *)
Theorem table_numbers (lower path_str : str -> str) (file_path : str)
    (records : list (list str)) (app : App) (new : list ScheduleRow) :
  file_path <> [] -> _load_csv lower records = Return new ->
  let after := (select_csv lower path_str file_path records app).1 in
  length (tree after) = length new
  /\ forall i row, new !! i = Some row ->
       tree after !! i
       = Some (mk_TreeItem (Z.of_nat i + 1) (date row) (start row) (end_ row)
                 (subject row) (status row) (busy row) (location row))
       /\ (Z.of_nat i + 1 < row_number row)%Z.
Proof.
  intros Hpath Hload after. subst after. unfold select_csv.
  apply truthy_true in Hpath. rewrite Hpath, Hload. cbn [negb fst].
  unfold _append_log, _refresh_tree. cbn [tree rows].
  split; [by rewrite length_imap|].
  intros i row Hrow. split.
  - by rewrite list_lookup_imap, Hrow.
  - apply _load_csv_rows in Hload as [_ Hsub].
    pose proof (sublist_seqZ_lookup _ _ _ i (row_number row) Hsub) as H.
    rewrite list_lookup_fmap, Hrow in H. specialize (H eq_refl). lia.
Qed.

(** A file whose first record is blank: the row of line 3 is line 1 of
    the table. *)
Lemma table_numbers_witness :
  let records := [ EXPECTED_FIELDS; [ []; u" " ];
                   [ u"2024-05-02"; u"09:00"; u"10:00"; u"b"; u"busy"; u"Kyoto" ] ] in
  let row := mk_ScheduleRow 3 (u"2024-05-02") (u"09:00") (u"10:00") (u"b") (u"busy")
               (u"Kyoto") [] 2 in
  tree (select_csv PyStr.lower_ascii id (u"a.csv") records SchedulerApp_init).1 !! 0%nat
  = Some (mk_TreeItem 1 (u"2024-05-02") (u"09:00") (u"10:00") (u"b") (u"busy") 2 (u"Kyoto")).
Proof.
  intros records row.
  destruct (table_numbers PyStr.lower_ascii id (u"a.csv") records SchedulerApp_init [row])
    as [_ H].
  - vm_compute. discriminate.
  - vm_compute. reflexivity.
  - destruct (H 0%nat row eq_refl) as [Hitem _]. exact Hitem.
Defined.

(** X16. Pressing the register button. When there are rows and the
    modules are there, the log gains the opening line, then either the
    one line of the failure to start Outlook or one line for each row,
    then the closing line, and the button is enabled again. When there
    are no rows or the modules are missing, one message box is shown,
    the log is as it was and nothing is handed to Outlook. *)
Theorem on_register_log (Host : Type)
    (create : Host -> Appointment -> Host * option str) (modules : bool)
    (d : dispatched Host) (app : App) :
  let after := on_register create modules d app in
  (rows app <> [] -> modules = true ->
     exists lines,
       log_text after.1 = log_text app ++ [start_line] ++ lines ++ [end_line]
       /\ match d with
          | Connected _ => Forall2 row_line (rows app) lines
          | Failed exc => lines = [dispatch_ng_line exc] /\ after.2 = []
          end
       /\ register_button after.1 = true)
  /\ (rows app = [] \/ modules = false ->
        log_text after.1 = log_text app /\ after.2 = []
        /\ length (dialogs after.1) = S (length (dialogs app))
        /\ register_button after.1 = register_button app).
Proof.
  intros after. subst after. unfold on_register. split.
  - intros Hrows ->. rewrite bool_decide_eq_false_2 by done. cbn [negb].
    destruct d as [outlook|exc].
    + destruct (run_log_steps create outlook
                  (_append_log (u"予定登録を開始") (set_button false app)))
        as (lines & Hlines & Hlog & Hbutton).
      exists lines. rewrite Hlog. split; [|split; [exact Hlines|exact Hbutton]].
      unfold _append_log, set_button, start_line. cbn [log_text].
      by rewrite <- !app_assoc.
    + exists [dispatch_ng_line exc]. unfold _register_appointments. cbn [fst snd].
      unfold finish, _append_log, set_button, start_line, end_line.
      cbn [log_text register_button].
      rewrite <- !app_assoc. done.
  - intros [Hrows| ->].
    + rewrite bool_decide_eq_true_2 by done. unfold show. cbn.
      rewrite length_app. cbn. repeat split; lia.
    + case_bool_decide; unfold show; cbn; rewrite length_app; cbn; repeat split; lia.
Qed.

(** One row and the stand-in for Outlook; then no row at all. *)
Lemma on_register_log_witness :
  let row := mk_ScheduleRow 2 (u"2024-05-01") (u"09:00") (u"10:00") (u"a") [] [] [] 2 in
  let app := mk_App (Some (u"a.csv")) (u"a.csv") [row] [] [] true [] in
  (exists lines,
     log_text (on_register (counting_create 5) true (Connected 0%nat) app).1
     = [] ++ [start_line] ++ lines ++ [end_line])
  /\ (on_register (counting_create 5) true (Connected 0%nat) SchedulerApp_init).2 = [].
Proof.
  intros row app. split.
  - destruct (on_register_log nat (counting_create 5) true (Connected 0%nat) app) as [H _].
    destruct H as (lines & Hlog & _); [vm_compute; discriminate|reflexivity|].
    by exists lines.
  - destruct (on_register_log nat (counting_create 5) true (Connected 0%nat)
                SchedulerApp_init) as [_ H].
    destruct H as (_ & Hcalls & _); [by left|exact Hcalls].
Defined.

(** On the records read, a load fails in one of three ways only: without
    any record, with the message that no header was found; with a header
    that lacks required names, with the message that lists them; or with
    an [AttributeError], and then some record has more fields than the
    header has names. *)
Lemma _load_csv_failures (lower : str -> str) (records : list (list str)) (e : exn) :
  _load_csv lower records = Raise e ->
  (records = [] /\ e = ValueError no_header_message)
  \/ exists headers data, records = headers :: data
       /\ ((~ EXPECTED_FIELDS ⊆ headers
            /\ e = ValueError (bad_header_message
                                 (filter (fun field => field ∉ headers) EXPECTED_FIELDS)))
           \/ (EXPECTED_FIELDS ⊆ headers /\ e = AttributeError
               /\ exists row, row ∈ data /\ (length headers < length row)%nat)).
Proof.
  intros Hload. destruct records as [|headers data].
  { left. split; [done|]. rewrite load_no_header in Hload. by injection Hload as <-. }
  right. exists headers, data. split; [done|].
  destruct (decide (filter (fun field => field ∉ headers) EXPECTED_FIELDS = [])) as [Hm|Hm].
  - right. split; [by apply missing_nil_iff|].
    assert (e = AttributeError) as ->.
    { unfold _load_csv in Hload. cbn [Csv.fieldnames head] in Hload.
      rewrite Hm, bool_decide_eq_false_2 in Hload by (intros H; by apply H).
      by apply load_loop_raises in Hload. }
    split; [done|].
    destruct (decide (Forall (fun row => (length row <= length headers)%nat) data))
      as [Hall|Hnot].
    + destruct (load_total lower headers data Hm Hall) as [rows Hrows]. congruence.
    + apply not_Forall_Exists in Hnot; [|apply _].
      apply Exists_exists in Hnot as (row & Hin & Hlen). unfold compose in Hlen.
      exists row. split; [done|lia].
  - left. split; [by rewrite <- missing_nil_iff|].
    destruct (load_missing_fields lower headers data Hm) as [Hraise _].
    rewrite Hraise in Hload. by injection Hload as <-.
Qed.


(** ** Loads with the reading of the file *)

(** When reading does not fail, the load is the load on the records. *)
Lemma _load_csv_path_read (lower : str -> str) (records : list (list str)) :
  _load_csv_path lower records None
  = match _load_csv lower records with
    | Return rows => Loaded rows
    | Raise e => LoadFails (Raised e)
    end.
Proof. unfold _load_csv_path. by destruct records. Qed.

Lemma _load_csv_path_header (lower : str -> str) (headers : list str)
    (data : list (list str)) (stop : option read_error) :
  _load_csv_path lower (headers :: data) stop
  = match _load_csv lower (headers :: data) with
    | Raise e => LoadFails (Raised e)
    | Return rows => from_option (fun r => LoadFails (Unread r)) (Loaded rows) stop
    end.
Proof.
  unfold _load_csv_path.
  destruct (_load_csv lower (headers :: data)), stop; reflexivity.
Qed.

Lemma _load_csv_complete_header (lower : str -> str) (headers : list str)
    (data : list (list str)) :
  EXPECTED_FIELDS ⊆ headers ->
  _load_csv lower (headers :: data) = Raise AttributeError
  \/ exists rows, _load_csv lower (headers :: data) = Return rows.
Proof.
  intros Hsub%missing_nil_iff.
  destruct (_load_csv lower (headers :: data)) as [rows|e] eqn:E; [right; by exists rows|].
  left. f_equal. unfold _load_csv in E. cbn [Csv.fieldnames head] in E.
  rewrite Hsub, bool_decide_eq_false_2 in E by (intros H; by apply H).
  by apply load_loop_raises in E.
Qed.

(** X3. The header test. Once the header has been read, the load raises
    the [ValueError] of a bad header exactly when one of the seven
    required names is not among the names of the header, as written: the
    order of the header and the names it has besides do not matter, nor
    does what follows in the file, even if reading it fails later. The
    message lists the required names the header lacks, and the load
    raises no other [ValueError] of its own; an exception of reading the
    file (a [UnicodeDecodeError] is a [ValueError] too) leaves the load
    only under a complete header, and is the one reading stopped at. *)
Theorem header_refused_iff (lower : str -> str) (headers : list str)
    (data : list (list str)) (stop : option read_error) :
  let missing := filter (fun field => field ∉ headers) EXPECTED_FIELDS in
  (~ EXPECTED_FIELDS ⊆ headers
   <-> _load_csv_path lower (headers :: data) stop
       = LoadFails (Raised (ValueError (bad_header_message missing))))
  /\ (forall msg,
        _load_csv_path lower (headers :: data) stop = LoadFails (Raised (ValueError msg)) ->
        ~ EXPECTED_FIELDS ⊆ headers /\ msg = bad_header_message missing)
  /\ (forall r,
        _load_csv_path lower (headers :: data) stop = LoadFails (Unread r) ->
        EXPECTED_FIELDS ⊆ headers /\ stop = Some r).
Proof.
  intros missing. rewrite _load_csv_path_header.
  destruct (decide (EXPECTED_FIELDS ⊆ headers)) as [Hsub|Hsub].
  - destruct (_load_csv_complete_header lower headers data Hsub) as [->|[rows ->]].
    + split; [split; [done|discriminate]|]. split; [discriminate|discriminate].
    + split; [split; [done|by destruct stop]|].
      split; [by destruct stop|].
      destruct stop as [r'|]; [|discriminate]. by intros r [= <-].
  - assert (missing <> []) as Hm by (unfold missing; by rewrite missing_nil_iff).
    destruct (load_missing_fields lower headers data Hm) as [-> _]. fold missing.
    split; [done|]. split; [|discriminate]. by intros msg [= <-].
Qed.

(** A header with "date" in small letters, a record, and a byte that
    does not decode after them: the header is refused, for the name
    Date. *)
Lemma header_refused_iff_witness :
  _load_csv_path PyStr.lower_ascii
    [ [ u"date"; u"Start"; u"End"; u"Subject"; u"Status"; u"Location"; u"Body" ];
      [ u"2024-05-01"; u"09:00"; u"10:00"; u"a" ] ]
    (Some (ReadValueError (u"'utf-8' codec can't decode byte 0xff")))
  = LoadFails (Raised (ValueError (bad_header_message [u"Date"]))).
Proof.
  apply (proj1 (proj1 (header_refused_iff PyStr.lower_ascii
                         [ u"date"; u"Start"; u"End"; u"Subject"; u"Status"; u"Location";
                           u"Body" ]
                         [ [ u"2024-05-01"; u"09:00"; u"10:00"; u"a" ] ]
                         (Some (ReadValueError (u"'utf-8' codec can't decode byte 0xff")))))).
  intros Hsub.
  assert (u"Date" ∈ [ u"date"; u"Start"; u"End"; u"Subject"; u"Status"; u"Location"; u"Body" ])
    as Hin by (apply Hsub; by left).
  revert Hin. refine (bool_decide_unpack _ _). vm_compute. exact I.
Defined.

(** X17. The ways a load can fail. A load fails in these ways only: with
    the exception at which reading the file stopped (the file does not
    open, a byte does not decode, [csv.reader] refuses a field), before
    any record or after the records of a file with a complete header;
    without any record, with the message that no header was found; with
    a header that lacks required names, with the message that lists
    them; or with an [AttributeError], and then some record has more
    fields than the header has names. A file that is read to its end,
    with a complete header and no record longer than the header, always
    loads. *)
Theorem load_failures (lower : str -> str) (records : list (list str))
    (stop : option read_error) :
  (forall e, _load_csv_path lower records stop = LoadFails e ->
     (records = []
      /\ ((stop = None /\ e = Raised (ValueError no_header_message))
          \/ exists r, stop = Some r /\ e = Unread r))
     \/ exists headers data, records = headers :: data
          /\ ((~ EXPECTED_FIELDS ⊆ headers
               /\ e = Raised (ValueError
                                (bad_header_message
                                   (filter (fun field => field ∉ headers) EXPECTED_FIELDS))))
              \/ (EXPECTED_FIELDS ⊆ headers /\ e = Raised AttributeError
                  /\ exists row, row ∈ data /\ (length headers < length row)%nat)
              \/ (EXPECTED_FIELDS ⊆ headers
                  /\ exists r, stop = Some r /\ e = Unread r)))
  /\ (forall headers data, records = headers :: data ->
        EXPECTED_FIELDS ⊆ headers ->
        Forall (fun row => (length row <= length headers)%nat) data ->
        stop = None ->
        exists rows, _load_csv_path lower records stop = Loaded rows).
Proof.
  split.
  - intros e H. destruct records as [|headers data].
    + left. split; [done|]. unfold _load_csv_path in H.
      destruct stop as [r|].
      * right. exists r. split; [done|]. by injection H as <-.
      * left. split; [done|]. rewrite load_no_header in H. by injection H as <-.
    + right. exists headers, data. split; [done|].
      rewrite _load_csv_path_header in H.
      destruct (_load_csv lower (headers :: data)) as [rows|e'] eqn:E.
      * right. right.
        destruct stop as [r|]; [|discriminate]. cbn [from_option] in H.
        injection H as <-. split; [|by exists r].
        destruct (decide (EXPECTED_FIELDS ⊆ headers)) as [Hsub|Hsub]; [done|].
        rewrite <- missing_nil_iff in Hsub.
        destruct (load_missing_fields lower headers data Hsub) as [Hraise _]. congruence.
      * injection H as <-.
        destruct (_load_csv_failures lower _ _ E)
          as [[[=] _]|(h & d & [= <- <-] & [[Hsub ->]|(Hsub & -> & Hrow)])].
        -- by left.
        -- right. by left.
  - intros headers data -> Hsub Hdata ->. rewrite _load_csv_path_read.
    apply missing_nil_iff in Hsub.
    destruct (load_total lower headers data Hsub Hdata) as [rows ->]. by exists rows.
Qed.

(** A file of which the header and one record were read before
    [csv.reader] refused a field; and a file read to its end. *)
Lemma load_failures_witness :
  (exists r, Some (ReadOtherError (u"Error") (u"field larger than field limit")) = Some r
             /\ Unread (ReadOtherError (u"Error") (u"field larger than field limit"))
                = Unread r)
  /\ exists rows,
       _load_csv_path PyStr.lower_ascii
         [ EXPECTED_FIELDS; [ u"2024-05-01"; u"09:00"; u"10:00"; u"a" ] ] None
       = Loaded rows.
Proof.
  split.
  - destruct (proj1 (load_failures PyStr.lower_ascii
                       [ EXPECTED_FIELDS; [ u"2024-05-01"; u"09:00"; u"10:00"; u"a" ] ]
                       (Some (ReadOtherError (u"Error") (u"field larger than field limit"))))
                (Unread (ReadOtherError (u"Error") (u"field larger than field limit"))))
      as [[[=] _]|(headers & data & _ & [[_ [=]]|[(_ & [=] & _)|(_ & H)]])].
    + vm_compute. reflexivity.
    + exact H.
  - apply (proj2 (load_failures PyStr.lower_ascii
                    [ EXPECTED_FIELDS; [ u"2024-05-01"; u"09:00"; u"10:00"; u"a" ] ] None)
             EXPECTED_FIELDS [ [ u"2024-05-01"; u"09:00"; u"10:00"; u"a" ] ]);
      try reflexivity.
    all: repeat constructor; unfold EXPECTED_FIELDS; cbn [length]; lia.
Defined.

(** X18. Choosing a file that cannot be read. When the file is read to
    its end, choosing it does what [select_csv] does on its records.
    When reading stops at an exception, nothing of the application
    changes but the message boxes: the path, the rows, the table, the
    log and the button stay as they were; either the method is left by
    an exception and no box is shown, or no exception leaves it and one
    error box with the title of a load error is shown. A byte that does
    not decode, met under a complete header none of whose records is
    longer than it, is shown in such a box with the text of the
    exception. *)
Theorem select_csv_unread (lower path_str : str -> str) (file_path : str)
    (records : list (list str)) (r : read_error) (app : App) :
  select_csv_path lower path_str file_path records None app
  = ((select_csv lower path_str file_path records app).1,
     Raised <$> (select_csv lower path_str file_path records app).2)
  /\ (let app' := (select_csv_path lower path_str file_path records (Some r) app).1 in
      let exc := (select_csv_path lower path_str file_path records (Some r) app).2 in
      csv_path app' = csv_path app /\ path_var app' = path_var app
      /\ rows app' = rows app /\ tree app' = tree app
      /\ log_text app' = log_text app /\ register_button app' = register_button app
      /\ ((dialogs app' = dialogs app /\ (PyStr.truthy file_path = true -> exc <> None))
          \/ (exc = None
              /\ exists msg, dialogs app' = dialogs app ++ [showerror (u"CSV読込エラー") msg])))
  /\ (forall headers data msg,
        PyStr.truthy file_path = true ->
        records = headers :: data ->
        EXPECTED_FIELDS ⊆ headers ->
        Forall (fun row => (length row <= length headers)%nat) data ->
        r = ReadValueError msg ->
        select_csv_path lower path_str file_path records (Some r) app
        = (show (showerror (u"CSV読込エラー") msg) app, None)).
Proof.
  split; [|split].
  - unfold select_csv_path, select_csv. destruct (negb (PyStr.truthy file_path)); [done|].
    rewrite _load_csv_path_read.
    destruct (_load_csv lower records) as [rows'|[msg|]]; reflexivity.
  - unfold select_csv_path. destruct (PyStr.truthy file_path); cbn [negb].
    + destruct (_load_csv_path lower records (Some r)) as [rows'|[[msg|]|[msg|name msg]]] eqn:E;
        cbn [fst snd].
      * exfalso. unfold _load_csv_path in E.
        destruct records as [|headers data]; [discriminate|].
        by destruct (_load_csv lower (headers :: data)).
      * repeat (split; [reflexivity|]). right. split; [done|]. by exists msg.
      * repeat (split; [reflexivity|]). left. split; [done|]. by intros _.
      * repeat (split; [reflexivity|]). right. split; [done|]. by exists msg.
      * repeat (split; [reflexivity|]). left. split; [done|]. by intros _.
    + cbn [fst snd]. repeat (split; [reflexivity|]). left. split; [done|]. by intros [=].
  - intros headers data msg Hfile -> Hsub Hdata ->.
    unfold select_csv_path. rewrite Hfile. cbn [negb].
    rewrite _load_csv_path_header.
    apply missing_nil_iff in Hsub.
    destruct (load_total lower headers data Hsub Hdata) as [rows' ->].
    reflexivity.
Qed.

(** A file with the seven names as its header and one record, after
    which a byte does not decode: the box shows the text of the
    exception, and the application is as before otherwise. *)
Lemma select_csv_unread_witness :
  select_csv_path PyStr.lower_ascii (fun p => p) (u"a.csv")
    [ EXPECTED_FIELDS; [ u"2024-05-01"; u"09:00"; u"10:00"; u"a" ] ]
    (Some (ReadValueError (u"'utf-8' codec can't decode byte 0xff")))
    (SchedulerApp_init)
  = (show (showerror (u"CSV読込エラー") (u"'utf-8' codec can't decode byte 0xff"))
       SchedulerApp_init, None).
Proof.
  apply (proj2 (proj2 (select_csv_unread PyStr.lower_ascii (fun p => p) (u"a.csv")
                         [ EXPECTED_FIELDS; [ u"2024-05-01"; u"09:00"; u"10:00"; u"a" ] ]
                         (ReadValueError (u"'utf-8' codec can't decode byte 0xff"))
                         SchedulerApp_init))
           EXPECTED_FIELDS [ [ u"2024-05-01"; u"09:00"; u"10:00"; u"a" ] ]
           (u"'utf-8' codec can't decode byte 0xff"));
    try reflexivity.
  all: repeat constructor; unfold EXPECTED_FIELDS; cbn [length]; lia.
Defined.
